(** * Trading-session scheduler of SniperScannerChartink.py

    A shallow embedding of the planner [get_next_run_time] and of the
    scheduler [main_loop], together with the properties the specification
    states about them.

    Modelling conventions.
    - A [datetime] is the wall-clock reading of an aware Python datetime that
      has been normalised to Asia/Kolkata (a fixed offset, no daylight saving):
      its calendar date is kept as the proleptic Gregorian ordinal that
      [date.toordinal()] returns, next to the four time-of-day fields.  The
      calendar ends with ordinal [MAXORDINAL] (9999-12-31): where the planner
      adds days to a date, a sum outside the calendar raises OverflowError.
      The addition that the scheduler itself makes on a week-end is applied
      to readings of the clock only, and is kept as the plain sum.
    - Python exceptions are values of [exn]; fallible code returns [result].
      Only subclasses of [Exception] are modelled: [SystemExit] and
      [KeyboardInterrupt], by which the signal handlers end the process, are
      not.
    - Durations ([timedelta], the float of [total_seconds()]) are kept as an
      exact number of microseconds.
    - The constants that [from config import *] brings in are the fields of a
      [Config] record.
    - The requests to Chartink and to Telegram, and the rendering of one row
      of the result as text, belong to the environment: they are functions
      given to the model of [job], which embeds what the code does around
      them. *)

From Stdlib Require Import ZArith Lia List Bool String.
From Equations Require Import Equations.
Import ListNotations.
Local Open Scope Z_scope.

(* ------------------------------------------------------------------------- *)
(** ** Exceptions and results *)

Inductive exn : Type :=
| ValueError          (* a field out of range in [replace], a negative sleep *)
| ZeroDivisionError   (* [//] by a zero interval *)
| FetchError          (* raised by [fetch_chartink_data] *)
| DeliveryError       (* raised by [send_to_telegram] *)
| OverflowError       (* a date past the end of the calendar *)
| OtherError.         (* any other subclass of [Exception] *)

Inductive result (A : Type) : Type :=
| Ok (a : A)
| Raise (e : exn).
Arguments Ok {A} a.
Arguments Raise {A} e.

Definition rbind {A B} (r : result A) (k : A -> result B) : result B :=
  match r with
  | Ok a => k a
  | Raise e => Raise e
  end.

Declare Scope result_scope.
Delimit Scope result_scope with result.
Notation "x <- r ;; k" := (rbind r (fun x => k))
  (at level 61, r at next level, right associativity) : result_scope.

(* ------------------------------------------------------------------------- *)
(** ** Dates and times *)

Record datetime : Type := mk_datetime {
  ordinal : Z;       (* [toordinal()] of the calendar date *)
  hour : Z;
  minute : Z;
  second : Z;
  microsecond : Z
}.

Definition valid_time (h m s us : Z) : bool :=
  (0 <=? h) && (h <? 24) && (0 <=? m) && (m <? 60) &&
  (0 <=? s) && (s <? 60) && (0 <=? us) && (us <? 1000000).

Definition valid (t : datetime) : bool :=
  valid_time (hour t) (minute t) (second t) (microsecond t).

(** [datetime.weekday()]: Monday is 0 and Sunday is 6; ordinal 1 (the first
    of January of year 1) is a Monday. *)
Definition weekday (d : Z) : Z := (d + 6) mod 7.

(** The calendar arithmetic of CPython's [_ymd2ord], used to write concrete
    dates legibly. *)
Definition is_leap (y : Z) : bool :=
  (y mod 4 =? 0) && (negb (y mod 100 =? 0) || (y mod 400 =? 0)).

Definition days_before_year (y : Z) : Z :=
  let y1 := y - 1 in y1 * 365 + y1 / 4 - y1 / 100 + y1 / 400.

Definition days_before_month (y m : Z) : Z :=
  nth (Z.to_nat m) [0; 0; 31; 59; 90; 120; 151; 181; 212; 243; 273; 304; 334] 0
  + (if (2 <? m) && is_leap y then 1 else 0).

Definition ymd2ord (y m d : Z) : Z :=
  days_before_year y + days_before_month y m + d.

(** [now.replace(hour=h, minute=m, second=s, microsecond=us)]: the date is
    kept, the fields are range-checked. *)
Definition replace (t : datetime) (h m s us : Z) : result datetime :=
  if valid_time h m s us then Ok (mk_datetime (ordinal t) h m s us)
  else Raise ValueError.

(** The sum that [t + datetime.timedelta(days=n)] computes. *)
Definition add_days (t : datetime) (n : Z) : datetime :=
  mk_datetime (ordinal t + n) (hour t) (minute t) (second t) (microsecond t).

(** The dates of the calendar: ordinal 1 is 0001-01-01 and [MAXORDINAL],
    [date.max.toordinal()], is 9999-12-31. *)
Definition MAXORDINAL : Z := 3652059.

Definition in_calendar (d : Z) : bool := (1 <=? d) && (d <=? MAXORDINAL).

(** [t + datetime.timedelta(days=n)] with the check that Python makes on the
    result: a date outside the calendar raises OverflowError. *)
Definition add_days_checked (t : datetime) (n : Z) : result datetime :=
  let t' := add_days t n in
  if in_calendar (ordinal t') then Ok t' else Raise OverflowError.

(** Comparison of two datetimes of the same zone: lexicographic on the
    fields. *)
Definition dt_compare (a b : datetime) : comparison :=
  match ordinal a ?= ordinal b with
  | Eq =>
    match hour a ?= hour b with
    | Eq =>
      match minute a ?= minute b with
      | Eq =>
        match second a ?= second b with
        | Eq => microsecond a ?= microsecond b
        | c => c
        end
      | c => c
      end
    | c => c
    end
  | c => c
  end.

Definition dt_ltb (a b : datetime) : bool :=
  match dt_compare a b with Lt => true | _ => false end.

Definition dt_gtb (a b : datetime) : bool :=
  match dt_compare a b with Gt => true | _ => false end.

(** Microseconds since midnight of ordinal 0; [b - a] as a [timedelta] is
    [to_us b - to_us a] microseconds. *)
Definition us_per_second : Z := 1000000.
Definition us_per_minute : Z := 60 * us_per_second.
Definition us_per_hour : Z := 60 * us_per_minute.
Definition us_per_day : Z := 24 * us_per_hour.

Definition to_us (t : datetime) : Z :=
  ordinal t * us_per_day + hour t * us_per_hour + minute t * us_per_minute
  + second t * us_per_second + microsecond t.

Definition of_us (n : Z) : datetime :=
  mk_datetime (n / us_per_day)
              (n mod us_per_day / us_per_hour)
              (n mod us_per_hour / us_per_minute)
              (n mod us_per_minute / us_per_second)
              (n mod us_per_second).

(** [t - datetime.timedelta(seconds=1)]. *)
Definition minus_one_second (t : datetime) : datetime :=
  of_us (to_us t - us_per_second).

(* ------------------------------------------------------------------------- *)
(** ** Configuration *)

Record Config : Type := mk_config {
  TRADING_START_HOUR : Z;
  TRADING_START_MINUTE : Z;
  TRADING_END_HOUR : Z;
  TRADING_END_MINUTE : Z;
  SCAN_INTERVAL_MINUTES : Z
}.

(** Modelled from the spec: config.py is not part of the sources; the
    docstring of [get_next_run_time] and the scenario of the specification
    give the window 09:15 to 15:15 and a scan every 15 minutes. *)
Definition default_config : Config := mk_config 9 15 15 15 15.

(** Start and end of the session on the date of ordinal [d]. *)
Definition session_start (cfg : Config) (d : Z) : datetime :=
  mk_datetime d (TRADING_START_HOUR cfg) (TRADING_START_MINUTE cfg) 0 0.

Definition session_end (cfg : Config) (d : Z) : datetime :=
  mk_datetime d (TRADING_END_HOUR cfg) (TRADING_END_MINUTE cfg) 0 0.

(** The invariant of SessionConfig: start and end are clock times and the
    session starts before it ends. *)
Definition wf_window (cfg : Config) : bool :=
  valid (session_start cfg 0) && valid (session_end cfg 0) &&
  dt_ltb (session_start cfg 0) (session_end cfg 0).

(** The interval is a positive divisor of the hour, so that the grid of one
    hour continues into the next. *)
Definition wf_interval (cfg : Config) : bool :=
  (0 <? SCAN_INTERVAL_MINUTES cfg) && (60 mod SCAN_INTERVAL_MINUTES cfg =? 0).

Definition wf_config (cfg : Config) : bool := wf_window cfg && wf_interval cfg.

(* ------------------------------------------------------------------------- *)
(** ** The planner *)

(** [while next_day.weekday() >= 5: next_day += timedelta(days=1)], on the
    ordinal of [next_day].  The loop leaves the week-end after at most two
    rounds. *)
Definition rounds_left (d : Z) : nat :=
  if 5 <=? weekday d then Z.to_nat (7 - weekday d) else 0%nat.
Arguments rounds_left : simpl never.

Equations? skip_weekend (d : Z) : Z by wf (rounds_left d) lt :=
  skip_weekend d with Z_ge_dec (weekday d) 5 => {
    | left _ := skip_weekend (d + 1);
    | right _ := d }.
Proof.
  unfold rounds_left.
  assert (Hs : weekday (d + 1) = (weekday d + 1) mod 7).
  { unfold weekday. replace (d + 1 + 6) with (d + 6 + 1) by lia.
    rewrite Z.add_mod by lia. reflexivity. }
  assert (Hr : 0 <= weekday d < 7) by (apply Z.mod_pos_bound; lia).
  rewrite Hs. destruct (Z.eq_dec (weekday d) 6) as [E | E].
  - rewrite E. simpl. lia.
  - rewrite Z.mod_small by lia.
    destruct (Z.leb_spec 5 (weekday d + 1)), (Z.leb_spec 5 (weekday d)); lia.
Qed.

(** The same loop with the check of each [next_day += timedelta(days=1)]. *)
Equations? skip_weekend_checked (d : Z) : result Z by wf (rounds_left d) lt :=
  skip_weekend_checked d with Z_ge_dec (weekday d) 5 => {
    | left _ :=
      if in_calendar (d + 1) then skip_weekend_checked (d + 1)
      else Raise OverflowError;
    | right _ := Ok d }.
Proof.
  unfold rounds_left.
  assert (Hs : weekday (d + 1) = (weekday d + 1) mod 7).
  { unfold weekday. replace (d + 1 + 6) with (d + 6 + 1) by lia.
    rewrite Z.add_mod by lia. reflexivity. }
  assert (Hr : 0 <= weekday d < 7) by (apply Z.mod_pos_bound; lia).
  rewrite Hs. destruct (Z.eq_dec (weekday d) 6) as [E | E].
  - rewrite E. simpl. lia.
  - rewrite Z.mod_small by lia.
    destruct (Z.leb_spec 5 (weekday d + 1)), (Z.leb_spec 5 (weekday d)); lia.
Qed.

Section Planner.

Variable cfg : Config.

Definition trading_start (now : datetime) : result datetime :=
  replace now (TRADING_START_HOUR cfg) (TRADING_START_MINUTE cfg) 0 0.

Definition trading_end (now : datetime) : result datetime :=
  replace now (TRADING_END_HOUR cfg) (TRADING_END_MINUTE cfg) 0 0.

(** The start of the session of the first trading day after [now]'s date
    (source lines 197-205 and again 217-225): one day is added, further days
    are added while the date is a Saturday or Sunday, and the time of day is
    replaced. *)
Definition next_trading_start (now : datetime) : result datetime :=
  (next_day <- add_days_checked now 1 ;;
   d <- skip_weekend_checked (ordinal next_day) ;;
   replace (mk_datetime d (hour next_day) (minute next_day) (second next_day)
                        (microsecond next_day))
           (TRADING_START_HOUR cfg) (TRADING_START_MINUTE cfg) 0 0)%result.

(** [(now.minute // SCAN_INTERVAL_MINUTES + 1) * SCAN_INTERVAL_MINUTES] *)
Definition snap_minutes (now : datetime) : result Z :=
  if SCAN_INTERVAL_MINUTES cfg =? 0 then Raise ZeroDivisionError
  else Ok ((minute now / SCAN_INTERVAL_MINUTES cfg + 1)
           * SCAN_INTERVAL_MINUTES cfg).

(** Source lines 208-214. *)
Definition candidate (now : datetime) : result datetime :=
  (minutes <- snap_minutes now ;;
   let hour0 := hour now in
   let '(minutes, hour0) :=
     if minutes =? 60 then (0, hour0 + 1) else (minutes, hour0) in
   replace now hour0 minutes 0 0)%result.

Definition get_next_run_time (now : datetime) : result datetime :=
  (tstart <- trading_start now ;;
   tend <- trading_end now ;;
   if dt_ltb now tstart then Ok tstart
   else if dt_gtb now tend then next_trading_start now
   else
     cand <- candidate now ;;
     if dt_gtb cand tend then next_trading_start now
     else Ok cand)%result.

End Planner.

(* ------------------------------------------------------------------------- *)
(** ** The scheduler *)

(** The three [logging.info] calls of [main_loop]. *)
Inductive info_msg : Type :=
| WeekendDetected
| PastTradingHours
| SleepingFor (seconds : Z) (next_run : datetime).

(** What one can observe of a run. *)
Inductive event : Type :=
| EvClock (t : datetime)   (* [get_ist_time()] returned [t] *)
| EvInfo (m : info_msg)    (* [logging.info] *)
| EvError (e : exn)        (* [logging.error(f"Error in main loop: {e}")] *)
| EvSleep (us : Z)         (* [time.sleep], in microseconds *)
| EvJob.                   (* [job()] was entered *)

(** The process as the loop sees it: the wall clock (microseconds, as
    [to_us]) and the events so far. *)
Record World : Type := mk_world {
  clock : Z;
  trace : list event
}.

(** Computations that read and advance the world and may raise. *)
Definition M (A : Type) : Type := World -> result A * World.

Definition ret {A} (a : A) : M A := fun w => (Ok a, w).

Definition bind {A B} (c : M A) (k : A -> M B) : M B :=
  fun w =>
    match c w with
    | (Ok a, w') => k a w'
    | (Raise e, w') => (Raise e, w')
    end.

Definition lift {A} (r : result A) : M A := fun w => (r, w).

(** [try: body / except Exception as e: handler(e)] *)
Definition try_except {A} (body : M A) (handler : exn -> M A) : M A :=
  fun w =>
    match body w with
    | (Ok a, w') => (Ok a, w')
    | (Raise e, w') => handler e w'
    end.

Declare Scope sched_scope.
Delimit Scope sched_scope with sched.
Notation "x <- c ;; k" := (bind c (fun x => k))
  (at level 61, c at next level, right associativity) : sched_scope.
Notation "c ;; k" := (bind c (fun _ => k))
  (at level 61, right associativity) : sched_scope.

Definition day_seconds : Z := 24 * 3600.
Definition cooldown_seconds : Z := 60.

Section Scheduler.

Variable cfg : Config.

(** The environment: how long a reading of the clock takes, and how long
    [job()] runs and whether it raises, each as a function of the instant
    at which it starts. *)
Variable read_cost : Z -> Z.
Variable job_run : Z -> Z * option exn.

Definition emit (ev : event) : M unit :=
  fun w => (Ok tt, mk_world (clock w) (trace w ++ [ev])).

Definition get_ist_time : M datetime :=
  fun w =>
    let t := of_us (clock w) in
    (Ok t, mk_world (clock w + read_cost (clock w)) (trace w ++ [EvClock t])).

(** [time.sleep] refuses a negative duration. *)
Definition sleep (us : Z) : M unit :=
  fun w =>
    if us <? 0 then (Raise ValueError, w)
    else (Ok tt, mk_world (clock w + us) (trace w ++ [EvSleep us])).

Definition job : M unit :=
  fun w =>
    let '(d, outcome) := job_run (clock w) in
    let w' := mk_world (clock w + d) (trace w ++ [EvJob]) in
    match outcome with
    | None => (Ok tt, w')
    | Some e => (Raise e, w')
    end.

Definition is_trading_day : M bool :=
  (t <- get_ist_time ;; ret (weekday (ordinal t) <? 5))%sched.

(** [(next_run - now).total_seconds()], in microseconds. *)
Definition wait_us (next_run now : datetime) : Z := to_us next_run - to_us now.

(** Source lines 236-242. *)
Definition next_monday (now : datetime) : result datetime :=
  let next_day := add_days now (7 - weekday (ordinal now)) in
  replace next_day (TRADING_START_HOUR cfg) (TRADING_START_MINUTE cfg) 0 0.

(** Source lines 250-267: from the planner's answer to the job. *)
Definition dispatch (now next_run : datetime) : M unit :=
  let wait := wait_us next_run now in
  if wait >? day_seconds * us_per_second then
    (emit (EvInfo PastTradingHours) ;; sleep wait)%sched
  else
    ((if wait >? 0 then
        (emit (EvInfo (SleepingFor (wait / us_per_second) next_run)) ;;
         sleep wait)%sched
      else sleep (1 * us_per_second)) ;;
     job)%sched.

(** The body of the [try] block, source lines 232-267. *)
Definition iteration : M unit :=
  (now <- get_ist_time ;;
   trading <- is_trading_day ;;
   if negb trading then
     next_run <- lift (next_monday now) ;;
     emit (EvInfo WeekendDetected) ;;
     sleep (wait_us next_run now)
   else
     next_run <- lift (get_next_run_time cfg now) ;;
     dispatch now next_run)%sched.

(** The [except] clause, source lines 269-272. *)
Definition on_error (e : exn) : M unit :=
  (emit (EvError e) ;; sleep (cooldown_seconds * us_per_second))%sched.

Definition loop_body : M unit := try_except iteration on_error.

(** The first [n] rounds of [while True]. *)
Fixpoint main_loop (n : nat) : M unit :=
  match n with
  | O => ret tt
  | S k => (loop_body ;; main_loop k)%sched
  end.

End Scheduler.

(* ------------------------------------------------------------------------- *)
(** ** The retry decorator and the job *)

(** The log lines of the decorator, of the two decorated functions and of
    [job]. *)
Inductive job_log : Type :=
| AttemptFailed (attempt : Z) (e : exn) (wait : Z)
    (* warning of the wrapper: "Attempt {attempt} failed: {e}. Retrying in
       {wait}s..." *)
| NoDataReceived           (* warning "No data received from Chartink" *)
| ChartinkFetchFailed (e : exn)   (* error "Chartink fetch failed: {e}" *)
| TelegramSendFailed (e : exn)    (* error "Telegram send failed: {e}" *)
| TelegramSent             (* info "Telegram message sent successfully" *)
| CheckingForSignals.      (* info "Checking for signals..." *)

(** What one can observe of a run of [job]. *)
Inductive job_event : Type :=
| JLog (l : job_log)
| JSleep (us : Z)          (* [time.sleep], in microseconds *)
| JScan                    (* the requests to Chartink were made *)
| JPost (text : string).   (* the request to Telegram was made, with its text *)

Record JobWorld : Type := mk_job_world {
  jclock : Z;
  jtrace : list job_event
}.

Definition J (A : Type) : Type := JobWorld -> result A * JobWorld.

Definition jret {A} (a : A) : J A := fun w => (Ok a, w).

Definition jbind {A B} (c : J A) (k : A -> J B) : J B :=
  fun w =>
    match c w with
    | (Ok a, w') => k a w'
    | (Raise e, w') => (Raise e, w')
    end.

Declare Scope job_scope.
Delimit Scope job_scope with job.
Notation "x <- c ;; k" := (jbind c (fun x => k))
  (at level 61, c at next level, right associativity) : job_scope.
Notation "c ;; k" := (jbind c (fun _ => k))
  (at level 61, right associativity) : job_scope.

Definition jemit (ev : job_event) : J unit :=
  fun w => (Ok tt, mk_job_world (jclock w) (jtrace w ++ [ev])).

Definition jsleep (us : Z) : J unit :=
  fun w =>
    if us <? 0 then (Raise ValueError, w)
    else (Ok tt, mk_job_world (jclock w + us) (jtrace w ++ [JSleep us])).

(** [range(n)] *)
Definition range (n : Z) : list Z := map Z.of_nat (seq 0 (Z.to_nat n)).

Section Decorator.

Context {A : Type}.

(** The arguments of [retry_on_failure]; the backoff is a number of
    microseconds. *)
Variable max_retries : Z.
Variable backoff : Z.

(** The decorated function, called with its arguments. *)
Variable func : J A.

(** [for attempt in range(max_retries): ...] followed by [return None]; the
    result is [Some] of what [func] returned, or [None]. *)
Fixpoint attempts (todo : list Z) : J (option A) :=
  match todo with
  | [] => jret None
  | attempt :: rest =>
    fun w =>
      match func w with
      | (Ok a, w1) => (Ok (Some a), w1)
      | (Raise e, w1) =>
        if attempt =? max_retries - 1 then (Raise e, w1)
        else
          let wait_time := backoff * 2 ^ attempt in
          (jemit (JLog (AttemptFailed (attempt + 1) e wait_time)) ;;
           jsleep wait_time ;;
           attempts rest)%job w1
      end
  end.

Definition retry_on_failure : J (option A) := attempts (range max_retries).

End Decorator.

(** The newline of the message. *)
Definition nl : string := String (Ascii.ascii_of_nat 10) EmptyString.

Definition no_match_message : string := "No stocks matched the condition.".

Definition table_header : string :=
  ("Chartink Signal Results:" ++ nl ++ nl
   ++ "Sr | NSE Code | Close | Volume | Change%" ++ nl
   ++ "---|----------|--------|---------|--------" ++ nl)%string.

Section Job.

(** A row of the scan result. *)
Variable row : Type.

Variable MAX_RETRIES : Z.
Variable RETRY_BACKOFF : Z.

(** The environment.
    [chartink clk]: the two requests to Chartink and the decoding of the
    answer, started at [clk]: how long they take, and either the exception
    they raise or the value of [data.get("data")], [None] when the key is
    missing.
    [format_row r]: the text of one row of the table, or the exception that
    the f-string raises.
    [telegram clk text]: the request to Telegram with [text], started at
    [clk]: how long it takes and the exception it raises, if any. *)
Variable chartink : Z -> Z * result (option (list row)).
Variable format_row : row -> result string.
Variable telegram : Z -> string -> Z * option exn.

(** The body of [fetch_chartink_data], source lines 109-125; the data frame
    is the list of its rows, each of which has its columns. *)
Definition fetch_body : J (list row) :=
  fun w =>
    let '(d, answer) := chartink (jclock w) in
    let w1 := mk_job_world (jclock w + d) (jtrace w ++ [JScan]) in
    match answer with
    | Ok (Some (r :: rows)) => (Ok (r :: rows), w1)
    | Ok _ => (Ok [], mk_job_world (jclock w1) (jtrace w1 ++ [JLog NoDataReceived]))
    | Raise e =>
      (Raise e,
       mk_job_world (jclock w1) (jtrace w1 ++ [JLog (ChartinkFetchFailed e)]))
    end.

Definition fetch_chartink_data : J (option (list row)) :=
  retry_on_failure MAX_RETRIES RETRY_BACKOFF fetch_body.

(** [for _, row in df.iterrows(): message += f"..."] *)
Fixpoint add_rows (message : string) (rows : list row) : result string :=
  match rows with
  | [] => Ok message
  | r :: rest =>
    (line <- format_row r ;; add_rows (message ++ line)%string rest)%result
  end.

(** Source lines 130-138. *)
Definition build_message (df : list row) : result string :=
  match df with
  | [] => Ok no_match_message
  | _ => add_rows table_header df
  end.

(** The body of [send_to_telegram], source lines 129-153.  The argument is
    [None] when the decorated fetch returned [None]: [df.empty] then raises
    (an AttributeError, here [OtherError]). *)
Definition send_body (df : option (list row)) : J unit :=
  fun w =>
    let failed e w0 :=
      (Raise e,
       mk_job_world (jclock w0) (jtrace w0 ++ [JLog (TelegramSendFailed e)])) in
    match df with
    | None => failed OtherError w
    | Some rows =>
      match build_message rows with
      | Raise e => failed e w
      | Ok text =>
        let '(d, outcome) := telegram (jclock w) text in
        let w1 := mk_job_world (jclock w + d) (jtrace w ++ [JPost text]) in
        match outcome with
        | Some e => failed e w1
        | None =>
          (Ok tt, mk_job_world (jclock w1) (jtrace w1 ++ [JLog TelegramSent]))
        end
      end
    end.

Definition send_to_telegram (df : option (list row)) : J (option unit) :=
  retry_on_failure MAX_RETRIES RETRY_BACKOFF (send_body df).

(** [job], source lines 155-158. *)
Definition job_body : J unit :=
  (jemit (JLog CheckingForSignals) ;;
   df <- fetch_chartink_data ;;
   _ <- send_to_telegram df ;;
   jret tt)%job.

(** [job] as the scheduler sees it: started at [clk], how long it runs and
    the exception it raises, if any. *)
Definition job_as_seen (clk : Z) : Z * option exn :=
  let '(r, w) := job_body (mk_job_world clk []) in
  (jclock w - clk, match r with Ok _ => None | Raise e => Some e end).

End Job.

(** The sleeps of a run, in order, and their sum. *)
Fixpoint sleeps (tr : list job_event) : list Z :=
  match tr with
  | [] => []
  | JSleep us :: tr' => us :: sleeps tr'
  | _ :: tr' => sleeps tr'
  end.

Definition total (l : list Z) : Z := fold_right Z.add 0 l.

(** How often Chartink and Telegram were asked. *)
Fixpoint scans (tr : list job_event) : nat :=
  match tr with
  | [] => 0
  | JScan :: tr' => S (scans tr')
  | _ :: tr' => scans tr'
  end.

Fixpoint posts (tr : list job_event) : nat :=
  match tr with
  | [] => 0
  | JPost _ :: tr' => S (posts tr')
  | _ :: tr' => posts tr'
  end.

(** The waits of the first [k] retries: backoff times 1, 2, 4, ... *)
Definition backoffs (backoff : Z) (k : nat) : list Z :=
  map (fun i => backoff * 2 ^ Z.of_nat i) (seq 0 k).

(* ------------------------------------------------------------------------- *)
(** ** Words of the specification *)

(** The first trading day after the date of ordinal [d]. *)
Definition next_trading_day (d : Z) : Z := skip_weekend (d + 1).

(** The first trading day after [d] is still a date of the calendar. *)
Definition can_roll (d : Z) : bool :=
  (0 <=? d) && (next_trading_day d <=? MAXORDINAL).

(** The answer of the planner when it rolls over from the date [d]. *)
Definition rolled (cfg : Config) (d : Z) : result datetime :=
  if can_roll d then Ok (session_start cfg (next_trading_day d))
  else Raise OverflowError.

(** A grid instant: a clock time hour:minute:00 whose minute is a multiple of
    the interval. *)
Definition is_grid (cfg : Config) (g : datetime) : Prop :=
  valid g = true /\ second g = 0 /\ microsecond g = 0 /\
  minute g mod SCAN_INTERVAL_MINUTES cfg = 0.

(** The snapping rule as the specification words it:
    ceil((minute+1)/intervalMinutes) * intervalMinutes. *)
Definition ceil_div (a b : Z) : Z := (a + b - 1) / b.

Definition spec_snap_minutes (cfg : Config) (m : Z) : Z :=
  ceil_div (m + 1) (SCAN_INTERVAL_MINUTES cfg) * SCAN_INTERVAL_MINUTES cfg.

(** The world after the two readings of the clock that open a round: the one
    kept in [now] and the one [is_trading_day()] makes for itself. *)
Definition after_readings (read_cost : Z -> Z) (w : World) : World :=
  let c1 := clock w + read_cost (clock w) in
  mk_world (c1 + read_cost c1)
           (trace w ++ [EvClock (of_us (clock w)); EvClock (of_us c1)]).

Definition second_reading (read_cost : Z -> Z) (w : World) : datetime :=
  of_us (clock w + read_cost (clock w)).

(** How often [job()] was entered in a run. *)
Fixpoint jobs_run (tr : list event) : nat :=
  match tr with
  | [] => 0
  | EvJob :: tr' => S (jobs_run tr')
  | _ :: tr' => jobs_run tr'
  end.

(** A computation whose outcome depends on the clock alone and which only
    appends to the trace: it carries nothing over from earlier rounds. *)
Definition clock_only {A} (c : M A) : Prop :=
  forall clk, exists r clk' evs,
    forall tr, c (mk_world clk tr) = (r, mk_world clk' (tr ++ evs)).

(* ------------------------------------------------------------------------- *)
(** ** Clock arithmetic *)

Ltac unbool :=
  repeat match goal with
  | H : _ && _ = true |- _ => apply andb_true_iff in H; destruct H
  | H : (_ <=? _) = true |- _ => apply Z.leb_le in H
  | H : (_ <? _) = true |- _ => apply Z.ltb_lt in H
  | H : (_ =? _) = true |- _ => apply Z.eqb_eq in H
  | H : (_ <=? _) = false |- _ => apply Z.leb_gt in H
  | H : (_ <? _) = false |- _ => apply Z.ltb_ge in H
  | H : (_ =? _) = false |- _ => apply Z.eqb_neq in H
  end.

Ltac fields := cbn [ordinal hour minute second microsecond] in *.

Ltac unfold_us :=
  unfold to_us, us_per_day, us_per_hour, us_per_minute, us_per_second in *.

Lemma valid_time_iff (h m s us : Z) :
  valid_time h m s us = true <->
  0 <= h < 24 /\ 0 <= m < 60 /\ 0 <= s < 60 /\ 0 <= us < 1000000.
Proof.
  unfold valid_time. split.
  - intros H. unbool. lia.
  - intros H. repeat (apply andb_true_iff; split);
      first [apply Z.leb_le | apply Z.ltb_lt]; lia.
Qed.

Lemma valid_iff (t : datetime) :
  valid t = true <->
  0 <= hour t < 24 /\ 0 <= minute t < 60 /\ 0 <= second t < 60 /\
  0 <= microsecond t < 1000000.
Proof. apply valid_time_iff. Qed.

Lemma dt_compare_us (a b : datetime) :
  valid a = true -> valid b = true -> dt_compare a b = (to_us a ?= to_us b).
Proof.
  intros Ha Hb. apply valid_iff in Ha. apply valid_iff in Hb.
  unfold dt_compare. symmetry.
  destruct (Z.compare_spec (ordinal a) (ordinal b));
  [ destruct (Z.compare_spec (hour a) (hour b));
    [ destruct (Z.compare_spec (minute a) (minute b));
      [ destruct (Z.compare_spec (second a) (second b));
        [ destruct (Z.compare_spec (microsecond a) (microsecond b)) | | ]
      | | ]
    | | ]
  | | ];
  first [ apply Z.compare_eq_iff | apply Z.compare_lt_iff
        | apply Z.compare_gt_iff ];
  unfold_us; lia.
Qed.

Lemma dt_ltb_us (a b : datetime) :
  valid a = true -> valid b = true -> dt_ltb a b = (to_us a <? to_us b).
Proof.
  intros Ha Hb. unfold dt_ltb, Z.ltb. now rewrite dt_compare_us.
Qed.

Lemma dt_gtb_us (a b : datetime) :
  valid a = true -> valid b = true -> dt_gtb a b = (to_us b <? to_us a).
Proof.
  intros Ha Hb. unfold dt_gtb. rewrite dt_compare_us by assumption.
  rewrite Z.ltb_antisym, Z.leb_compare.
  now destruct (to_us a ?= to_us b).
Qed.

Lemma to_us_inj (a b : datetime) :
  valid a = true -> valid b = true -> to_us a = to_us b -> a = b.
Proof.
  intros Ha Hb E. apply valid_iff in Ha. apply valid_iff in Hb.
  destruct a as [d h m s u], b as [d' h' m' s' u']. simpl in *.
  unfold_us. simpl in E.
  assert (d = d') by lia. assert (h = h') by lia. assert (m = m') by lia.
  assert (s = s') by lia. assert (u = u') by lia. now subst.
Qed.

Lemma of_us_valid (n : Z) : valid (of_us n) = true.
Proof.
  apply valid_iff. unfold of_us. simpl.
  unfold us_per_day, us_per_hour, us_per_minute, us_per_second.
  Z.div_mod_to_equations. lia.
Qed.

Lemma to_us_of_us (n : Z) : to_us (of_us n) = n.
Proof.
  unfold of_us, to_us. simpl.
  unfold us_per_day, us_per_hour, us_per_minute, us_per_second.
  Z.div_mod_to_equations. lia.
Qed.

Lemma of_us_to_us (t : datetime) : valid t = true -> of_us (to_us t) = t.
Proof.
  intros Hv. apply to_us_inj; auto using of_us_valid. apply to_us_of_us.
Qed.

(* ------------------------------------------------------------------------- *)
(** ** The week-end loop *)

Lemma weekday_range (d : Z) : 0 <= weekday d < 7.
Proof. unfold weekday. apply Z.mod_pos_bound. lia. Qed.

Lemma weekday_succ (d : Z) :
  weekday (d + 1) = if weekday d =? 6 then 0 else weekday d + 1.
Proof.
  pose proof (weekday_range d) as Hr. unfold weekday in *.
  replace (d + 1 + 6) with (d + 6 + 1) by lia.
  rewrite Z.add_mod by lia.
  destruct (Z.eqb_spec ((d + 6) mod 7) 6) as [E | E].
  - rewrite E. reflexivity.
  - change (1 mod 7) with 1. apply Z.mod_small. lia.
Qed.

Lemma weekday_add (d k : Z) : weekday (d + k) = (weekday d + k) mod 7.
Proof.
  unfold weekday. replace (d + k + 6) with (d + 6 + k) by lia.
  now rewrite Z.add_mod_idemp_l by lia.
Qed.

Lemma skip_weekend_weekday (d : Z) : weekday d < 5 -> skip_weekend d = d.
Proof.
  intros H. simp skip_weekend. destruct (Z_ge_dec (weekday d) 5); [lia|].
  reflexivity.
Qed.

Lemma skip_weekend_step (d : Z) :
  5 <= weekday d -> skip_weekend d = skip_weekend (d + 1).
Proof.
  intros H. rewrite (skip_weekend_equation_1 d).
  destruct (Z_ge_dec (weekday d) 5); [|lia]. reflexivity.
Qed.

(** The loop in closed form: Saturday moves two days, Sunday one. *)
Lemma skip_weekend_closed (d : Z) :
  skip_weekend d =
  if weekday d =? 5 then d + 2 else if weekday d =? 6 then d + 1 else d.
Proof.
  pose proof (weekday_range d) as Hr.
  destruct (Z.eqb_spec (weekday d) 5) as [E5 | N5].
  - rewrite skip_weekend_step by lia.
    assert (E6 : weekday (d + 1) = 6) by (rewrite weekday_succ, E5; reflexivity).
    rewrite skip_weekend_step by lia.
    replace (d + 1 + 1) with (d + 2) by lia.
    apply skip_weekend_weekday.
    replace (d + 2) with (d + 1 + 1) by lia. rewrite weekday_succ, E6. simpl. lia.
  - destruct (Z.eqb_spec (weekday d) 6) as [E6 | N6].
    + rewrite skip_weekend_step by lia.
      apply skip_weekend_weekday. rewrite weekday_succ, E6. simpl. lia.
    + apply skip_weekend_weekday. lia.
Qed.

(** The checked loop finds the same date, or raises when that date lies past
    the end of the calendar. *)
Lemma skip_weekend_checked_eq (d : Z) :
  0 <= d <= MAXORDINAL ->
  skip_weekend_checked d
  = if skip_weekend d <=? MAXORDINAL then Ok (skip_weekend d)
    else Raise OverflowError.
Proof.
  intros Hd. rewrite skip_weekend_closed.
  pose proof (weekday_range d) as Hr.
  assert (Hweek : forall x, weekday x < 5 -> skip_weekend_checked x = Ok x).
  { intros x Hx. rewrite skip_weekend_checked_equation_1.
    destruct (Z_ge_dec (weekday x) 5); [lia | reflexivity]. }
  assert (Hstep : forall x, 5 <= weekday x ->
    skip_weekend_checked x
    = if in_calendar (x + 1) then skip_weekend_checked (x + 1)
      else Raise OverflowError).
  { intros x Hx. rewrite (skip_weekend_checked_equation_1 x).
    destruct (Z_ge_dec (weekday x) 5); [reflexivity | lia]. }
  assert (Hcal : forall x, 0 <= x -> in_calendar (x + 1) = (x + 1 <=? MAXORDINAL)).
  { intros x Hx. unfold in_calendar.
    destruct (Z.leb_spec 1 (x + 1)); [reflexivity | lia]. }
  destruct (Z.eqb_spec (weekday d) 5) as [E5 | N5].
  - assert (E6 : weekday (d + 1) = 6) by (rewrite weekday_succ, E5; reflexivity).
    assert (E0 : weekday (d + 1 + 1) = 0) by (rewrite weekday_succ, E6; reflexivity).
    rewrite (Hstep d) by lia. rewrite Hcal by lia.
    destruct (Z.leb_spec (d + 1) MAXORDINAL) as [H1 | H1].
    + rewrite (Hstep (d + 1)) by lia. rewrite Hcal by lia.
      replace (d + 1 + 1) with (d + 2) in * by lia.
      destruct (Z.leb_spec (d + 2) MAXORDINAL); [|reflexivity].
      apply Hweek. lia.
    + destruct (Z.leb_spec (d + 2) MAXORDINAL); [lia | reflexivity].
  - destruct (Z.eqb_spec (weekday d) 6) as [E6 | N6].
    + assert (E0 : weekday (d + 1) = 0) by (rewrite weekday_succ, E6; reflexivity).
      rewrite (Hstep d) by lia. rewrite Hcal by lia.
      destruct (Z.leb_spec (d + 1) MAXORDINAL); [|reflexivity].
      apply Hweek. lia.
    + destruct (Z.leb_spec d MAXORDINAL); [|lia]. apply Hweek. lia.
Qed.

Lemma next_trading_day_spec (d : Z) :
  d < next_trading_day d /\
  weekday (next_trading_day d) < 5 /\
  forall x, d < x < next_trading_day d -> 5 <= weekday x.
Proof.
  unfold next_trading_day. rewrite skip_weekend_closed.
  pose proof (weekday_range (d + 1)) as Hr.
  destruct (Z.eqb_spec (weekday (d + 1)) 5) as [E5 | N5].
  - assert (E6 : weekday (d + 2) = 6).
    { replace (d + 2) with (d + 1 + 1) by lia. now rewrite weekday_succ, E5. }
    assert (E0 : weekday (d + 1 + 2) = 0).
    { replace (d + 1 + 2) with (d + 2 + 1) by lia. now rewrite weekday_succ, E6. }
    repeat split; try lia.
    intros x Hx. assert (Hc : x = d + 1 \/ x = d + 2) by lia.
    destruct Hc; subst; lia.
  - destruct (Z.eqb_spec (weekday (d + 1)) 6) as [E6 | N6].
    + assert (E0 : weekday (d + 1 + 1) = 0) by now rewrite weekday_succ, E6.
      repeat split; try lia.
      intros x Hx. assert (x = d + 1) by lia. subst. lia.
    + repeat split; try lia.
Qed.

(* ------------------------------------------------------------------------- *)
(** ** The branches of the planner *)

(** One second before a whole minute that is not midnight. *)
Lemma minus_one_second_whole_minute (r : datetime) :
  valid r = true -> second r = 0 -> microsecond r = 0 ->
  0 < hour r * 60 + minute r ->
  let p := minus_one_second r in
  valid p = true /\ ordinal p = ordinal r /\
  hour p * 60 + minute p = hour r * 60 + minute r - 1 /\
  second p = 59 /\ microsecond p = 0.
Proof.
  intros Hv Hs Hu Hpos p.
  set (tm := hour r * 60 + minute r - 1).
  assert (E : p = mk_datetime (ordinal r) (tm / 60) (tm mod 60) 59 0).
  { apply valid_iff in Hv. subst p tm. unfold minus_one_second.
    apply to_us_inj.
    - apply of_us_valid.
    - apply valid_iff. simpl. Z.div_mod_to_equations. lia.
    - rewrite to_us_of_us. unfold_us. simpl. rewrite Hs, Hu.
      Z.div_mod_to_equations. lia. }
  apply valid_iff in Hv. rewrite E. subst tm. simpl.
  repeat split; try (apply valid_iff; simpl); Z.div_mod_to_equations; lia.
Qed.

Section PlannerFacts.

Variable cfg : Config.

Hypothesis Hwin : wf_window cfg = true.

Lemma trading_start_ok (t : datetime) :
  trading_start cfg t = Ok (session_start cfg (ordinal t)).
Proof.
  unfold wf_window in Hwin. unbool.
  unfold trading_start, replace, session_start.
  match goal with H : valid (session_start _ _) = true |- _ =>
    unfold valid, session_start in H; simpl in H; now rewrite H end.
Qed.

Lemma trading_end_ok (t : datetime) :
  trading_end cfg t = Ok (session_end cfg (ordinal t)).
Proof.
  unfold wf_window in Hwin. unbool.
  unfold trading_end, replace, session_end.
  match goal with H : valid (session_end _ _) = true |- _ =>
    unfold valid, session_end in H; simpl in H; now rewrite H end.
Qed.

Lemma session_start_valid_aux :
  valid_time (TRADING_START_HOUR cfg) (TRADING_START_MINUTE cfg) 0 0 = true.
Proof. unfold wf_window in Hwin. unbool. assumption. Qed.

Lemma next_trading_start_eq (t : datetime) :
  next_trading_start cfg t = rolled cfg (ordinal t).
Proof.
  pose proof (session_start_valid_aux) as Hvs.
  unfold next_trading_start, rolled, can_roll, add_days_checked, add_days.
  cbn [ordinal hour minute second microsecond]. unfold in_calendar.
  destruct (Z.leb_spec 0 (ordinal t)) as [Hge | Hneg].
  - destruct (Z.leb_spec 1 (ordinal t + 1)); [|lia].
    destruct (Z.leb_spec (ordinal t + 1) MAXORDINAL) as [Hin | Hout];
      cbn [andb rbind].
    + cbn [ordinal hour minute second microsecond].
      rewrite skip_weekend_checked_eq by lia.
      fold (next_trading_day (ordinal t)).
      destruct (next_trading_day (ordinal t) <=? MAXORDINAL); cbn [rbind];
        [|reflexivity].
      unfold replace, session_start. now rewrite Hvs.
    + destruct (next_trading_day_spec (ordinal t)) as (Hd & _).
      destruct (Z.leb_spec (next_trading_day (ordinal t)) MAXORDINAL);
        [lia | reflexivity].
  - destruct (Z.leb_spec 1 (ordinal t + 1)); [lia|]. reflexivity.
Qed.

(** The last date of the calendar is a Friday, so that it is the only date
    of the calendar without a next trading day. *)
Lemma can_roll_iff (d : Z) : can_roll d = true <-> 0 <= d < MAXORDINAL.
Proof.
  unfold can_roll. rewrite andb_true_iff, Z.leb_le, Z.leb_le.
  destruct (next_trading_day_spec d) as (Hd & Hw & Hbetween).
  split.
  - intros [H0 Hn]. lia.
  - intros [H0 Hn]. split; [exact H0|].
    destruct (Z.le_gt_cases (next_trading_day d) MAXORDINAL) as [Hok | Hbad];
      [exact Hok|].
    specialize (Hbetween MAXORDINAL ltac:(lia)).
    change (weekday MAXORDINAL) with 4 in Hbetween. lia.
Qed.

Lemma rolled_ok (d : Z) :
  0 <= d < MAXORDINAL ->
  rolled cfg d = Ok (session_start cfg (next_trading_day d)).
Proof.
  intros Hd. unfold rolled. apply can_roll_iff in Hd. now rewrite Hd.
Qed.

Lemma rolled_inv (d : Z) (r : datetime) :
  rolled cfg d = Ok r ->
  r = session_start cfg (next_trading_day d) /\ 0 <= d < MAXORDINAL.
Proof.
  unfold rolled. destruct (can_roll d) eqn:Hc; [|discriminate].
  intros H. apply can_roll_iff in Hc. split; [congruence | exact Hc].
Qed.

Lemma get_next_run_time_unfold (t : datetime) :
  get_next_run_time cfg t =
  if dt_ltb t (session_start cfg (ordinal t))
  then Ok (session_start cfg (ordinal t))
  else if dt_gtb t (session_end cfg (ordinal t))
  then rolled cfg (ordinal t)
  else
    (cand <- candidate cfg t ;;
     if dt_gtb cand (session_end cfg (ordinal t))
     then rolled cfg (ordinal t)
     else Ok cand)%result.
Proof.
  unfold get_next_run_time.
  rewrite trading_start_ok, trading_end_ok. cbn [rbind].
  now rewrite next_trading_start_eq.
Qed.

Lemma session_start_valid (d : Z) : valid (session_start cfg d) = true.
Proof. unfold wf_window in Hwin. unbool. assumption. Qed.

Lemma session_end_valid (d : Z) : valid (session_end cfg d) = true.
Proof. unfold wf_window in Hwin. unbool. assumption. Qed.

Lemma session_start_before_end (d : Z) :
  to_us (session_start cfg d) < to_us (session_end cfg d).
Proof.
  pose proof Hwin as H. unfold wf_window in H. unbool.
  rewrite dt_ltb_us in * by assumption. unbool.
  revert H0. unfold session_start, session_end. unfold_us. simpl. lia.
Qed.

Hypothesis Hint : wf_interval cfg = true.

Local Abbreviation I := (SCAN_INTERVAL_MINUTES cfg).

(** The arithmetic of the snapped minute. *)
Lemma snap_bounds (m : Z) :
  0 <= m < 60 ->
  let snap := (m / I + 1) * I in
  m < snap <= m + I /\ snap <= 60 /\ snap mod I = 0 /\
  forall k, m < k * I -> snap <= k * I.
Proof.
  intros Hm snap. subst snap. unfold wf_interval in Hint. unbool.
  assert (H60 : 60 = I * (60 / I)).
  { pose proof (Z.div_mod 60 I ltac:(lia)). lia. }
  pose proof (Z.div_mod m I ltac:(lia)) as Hdm.
  pose proof (Z.mod_pos_bound m I ltac:(lia)) as Hmb.
  repeat split.
  - nia.
  - nia.
  - assert (m / I + 1 <= 60 / I) by nia. nia.
  - apply Z.mod_mul. lia.
  - intros k Hk. assert (m / I + 1 <= k) by nia. nia.
Qed.

Lemma snap_minutes_ok (t : datetime) :
  snap_minutes cfg t = Ok ((minute t / I + 1) * I).
Proof.
  unfold snap_minutes. unfold wf_interval in Hint. unbool.
  destruct (Z.eqb_spec I 0); [lia | reflexivity].
Qed.

(** What a successful candidate looks like. *)
Lemma candidate_inv (t c : datetime) :
  valid t = true -> candidate cfg t = Ok c ->
  valid c = true /\ ordinal c = ordinal t /\
  second c = 0 /\ microsecond c = 0 /\
  hour c * 60 + minute c = hour t * 60 + (minute t / I + 1) * I /\
  minute c mod I = 0.
Proof.
  intros Hv Hc. unfold candidate in Hc. rewrite snap_minutes_ok in Hc.
  simpl in Hc. apply valid_iff in Hv.
  destruct (snap_bounds (minute t) ltac:(lia)) as (Hlt & H60 & Hmod & _).
  destruct (Z.eqb_spec ((minute t / I + 1) * I) 60) as [E | N];
    unfold replace in Hc;
    match type of Hc with (if ?b then _ else _) = _ =>
      destruct b eqn:Hb; [|discriminate] end;
    injection Hc as <-; apply valid_time_iff in Hb; simpl;
    repeat split; try apply valid_iff; simpl; lia.
Qed.

(** The candidate exists unless the carry leaves the day. *)
Lemma candidate_total (t : datetime) :
  valid t = true -> hour t < 23 -> exists c, candidate cfg t = Ok c.
Proof.
  intros Hv Hh. unfold candidate. rewrite snap_minutes_ok. simpl.
  apply valid_iff in Hv.
  destruct (snap_bounds (minute t) ltac:(lia)) as (Hlt & H60 & Hmod & _).
  destruct (Z.eqb_spec ((minute t / I + 1) * I) 60) as [E | N];
    unfold replace;
    match goal with |- exists _, (if ?b then _ else _) = _ =>
      assert (Hb : b = true) by (apply valid_time_iff; lia); rewrite Hb end;
    eauto.
Qed.

Lemma candidate_after (t c : datetime) :
  valid t = true -> candidate cfg t = Ok c -> to_us t < to_us c.
Proof.
  intros Hv Hc. destruct (candidate_inv t c Hv Hc) as (Hvc & Ho & Hs & Hu & Hm & _).
  apply valid_iff in Hv. apply valid_iff in Hvc.
  destruct (snap_bounds (minute t) ltac:(lia)) as (Hlt & _).
  unfold_us. rewrite Ho, Hs, Hu. lia.
Qed.

(** Inside the window the planner answers with the candidate, or with the
    next session when the candidate is past the end. *)
Lemma get_next_run_time_in_window (t c : datetime) :
  valid t = true ->
  to_us (session_start cfg (ordinal t)) <= to_us t <= to_us (session_end cfg (ordinal t)) ->
  candidate cfg t = Ok c ->
  get_next_run_time cfg t =
  if to_us (session_end cfg (ordinal t)) <? to_us c
  then rolled cfg (ordinal t)
  else Ok c.
Proof.
  intros Hv [Hlo Hhi] Hc.
  destruct (candidate_inv t c Hv Hc) as (Hvc & _).
  rewrite get_next_run_time_unfold, Hc. cbn [rbind].
  rewrite dt_ltb_us, !dt_gtb_us
    by auto using session_start_valid, session_end_valid.
  destruct (Z.ltb_spec (to_us t) (to_us (session_start cfg (ordinal t)))); [lia|].
  destruct (Z.ltb_spec (to_us (session_end cfg (ordinal t))) (to_us t)); [lia|].
  reflexivity.
Qed.

Lemma next_session_after (t : datetime) :
  valid t = true ->
  to_us t < to_us (session_start cfg (next_trading_day (ordinal t))).
Proof.
  intros Hv. apply valid_iff in Hv.
  destruct (next_trading_day_spec (ordinal t)) as (Hd & _).
  pose proof (session_start_valid 0) as Hs. apply valid_iff in Hs.
  unfold session_start in *. unfold_us. simpl in *. nia.
Qed.

(** Whatever the planner returns is a clock time later than its argument. *)
Lemma get_next_run_time_later (t r : datetime) :
  valid t = true -> get_next_run_time cfg t = Ok r ->
  valid r = true /\ to_us t < to_us r.
Proof.
  intros Hv Hr. rewrite get_next_run_time_unfold in Hr.
  rewrite dt_ltb_us, dt_gtb_us in Hr
    by auto using session_start_valid, session_end_valid.
  destruct (Z.ltb_spec (to_us t) (to_us (session_start cfg (ordinal t)))).
  { injection Hr as <-. split; [apply session_start_valid | assumption]. }
  destruct (Z.ltb_spec (to_us (session_end cfg (ordinal t))) (to_us t)).
  { apply rolled_inv in Hr. destruct Hr as [-> _].
    split; [apply session_start_valid | now apply next_session_after]. }
  destruct (candidate cfg t) as [c | e] eqn:Hc; [|discriminate].
  cbn [rbind] in Hr.
  destruct (candidate_inv t c Hv Hc) as (Hvc & _).
  destruct (dt_gtb c (session_end cfg (ordinal t))).
  - apply rolled_inv in Hr. destruct Hr as [-> _].
    split; [apply session_start_valid | now apply next_session_after].
  - injection Hr as <-. split; [assumption | now apply candidate_after].
Qed.

(** The planner raises nothing when the carry cannot leave the day and the
    date is not the last of the calendar. *)
Lemma get_next_run_time_total (t : datetime) :
  valid t = true -> TRADING_END_HOUR cfg < 23 ->
  0 <= ordinal t < MAXORDINAL ->
  exists r, get_next_run_time cfg t = Ok r.
Proof.
  intros Hv Hh Hcal. rewrite get_next_run_time_unfold.
  rewrite (rolled_ok (ordinal t) Hcal).
  rewrite dt_ltb_us, dt_gtb_us
    by auto using session_start_valid, session_end_valid.
  destruct (Z.ltb_spec (to_us t) (to_us (session_start cfg (ordinal t)))); eauto.
  destruct (Z.ltb_spec (to_us (session_end cfg (ordinal t))) (to_us t)); eauto.
  destruct (candidate_total t Hv) as [c Hc].
  { pose proof (session_end_valid 0) as He. apply valid_iff in He.
    apply valid_iff in Hv. unfold session_end in *. unfold_us. simpl in *. lia. }
  rewrite Hc. cbn [rbind]. destruct (dt_gtb c _); eauto.
Qed.

(** Re-planning from one second before a grid instant finds it again. *)
Lemma candidate_of_pred (c : datetime) :
  valid c = true -> second c = 0 -> microsecond c = 0 ->
  minute c mod I = 0 -> 0 < hour c * 60 + minute c ->
  candidate cfg (minus_one_second c) = Ok c.
Proof.
  intros Hv Hs Hu Hg Hpos.
  destruct (minus_one_second_whole_minute c Hv Hs Hu Hpos)
    as (Hvp & Hop & Hmp & Hsp & Hup).
  set (p := minus_one_second c) in *. clearbody p.
  pose proof Hv as Hv'. apply valid_iff in Hv'. pose proof Hvp as Hvp'.
  apply valid_iff in Hvp'.
  destruct (snap_bounds (minute p) ltac:(lia)) as (Hlt & H60 & Hmod & Hmin).
  pose proof Hint as Hi. unfold wf_interval in Hi. unbool.
  assert (Hk : minute c = I * (minute c / I)).
  { pose proof (Z.div_mod (minute c) I ltac:(lia)). lia. }
  unfold candidate. rewrite snap_minutes_ok. simpl.
  destruct c as [d h m s u]. simpl in *. subst s u.
  destruct (Z.eq_dec m 0) as [E0 | N0].
  - (* the hour before, minute 59 *)
    assert (Hm59 : minute p = 59 /\ hour p = h - 1) by lia.
    destruct Hm59 as [Hm59 Hh].
    assert (E60 : (minute p / I + 1) * I = 60).
    { rewrite Hm59 in *.
      assert (H60' : 60 = I * (60 / I))
        by (pose proof (Z.div_mod 60 I ltac:(lia)); lia).
      specialize (Hmin (60 / I)). lia. }
    rewrite E60. simpl. unfold replace.
    rewrite Hh, Hop, E0.
    replace (h - 1 + 1) with h by lia.
    assert (Hb : valid_time h 0 0 0 = true) by (apply valid_time_iff; lia).
    now rewrite Hb.
  - (* the same hour, the minute before *)
    assert (Hm1 : minute p = m - 1 /\ hour p = h) by lia.
    destruct Hm1 as [Hm1 Hh].
    assert (Em : (minute p / I + 1) * I = m).
    { rewrite Hm1 in *. specialize (Hmin (m / I)). lia. }
    rewrite Em.
    destruct (Z.eqb_spec m 60); [lia|].
    unfold replace. rewrite Hh, Hop.
    assert (Hb : valid_time h m 0 0 = true) by (apply valid_time_iff; lia).
    now rewrite Hb.
Qed.

(** The planner's answer is found again from one second before it, as long
    as the session does not start at midnight. *)
Lemma get_next_run_time_again (t r : datetime) :
  0 < TRADING_START_HOUR cfg * 60 + TRADING_START_MINUTE cfg ->
  valid t = true -> get_next_run_time cfg t = Ok r ->
  get_next_run_time cfg (minus_one_second r) = Ok r.
Proof.
  intros Hnz Hv Hr.
  assert (Hstart : forall d,
    get_next_run_time cfg (minus_one_second (session_start cfg d))
    = Ok (session_start cfg d)).
  { intros d.
    destruct (minus_one_second_whole_minute (session_start cfg d))
      as (Hvp & Hop & Hmp & Hsp & Hup);
      [apply session_start_valid | reflexivity | reflexivity | exact Hnz |].
    rewrite get_next_run_time_unfold, Hop. simpl ordinal.
    rewrite dt_ltb_us by auto using session_start_valid.
    destruct (Z.ltb_spec (to_us (minus_one_second (session_start cfg d)))
                         (to_us (session_start cfg d))) as [_ | Hge];
      [reflexivity|].
    exfalso. apply valid_iff in Hvp. revert Hge. unfold_us.
    rewrite Hop, Hsp, Hup. simpl in *. lia. }
  rewrite get_next_run_time_unfold in Hr.
  rewrite dt_ltb_us, dt_gtb_us in Hr
    by auto using session_start_valid, session_end_valid.
  destruct (Z.ltb_spec (to_us t) (to_us (session_start cfg (ordinal t))))
    as [Hlt | Hge].
  { injection Hr as <-. apply Hstart. }
  destruct (Z.ltb_spec (to_us (session_end cfg (ordinal t))) (to_us t))
    as [Hgt | Hle].
  { apply rolled_inv in Hr. destruct Hr as [-> _]. apply Hstart. }
  destruct (candidate cfg t) as [c | e] eqn:Hc; [|discriminate].
  cbn [rbind] in Hr.
  destruct (candidate_inv t c Hv Hc) as (Hvc & Hoc & Hsc & Huc & Hmc & Hgc).
  rewrite dt_gtb_us in Hr by auto using session_end_valid.
  destruct (Z.ltb_spec (to_us (session_end cfg (ordinal t))) (to_us c))
    as [Hover | Hin].
  { apply rolled_inv in Hr. destruct Hr as [-> _]. apply Hstart. }
  injection Hr as <-.
  pose proof Hv as Hv'. apply valid_iff in Hv'.
  destruct (snap_bounds (minute t) ltac:(lia)) as (Hs1 & _).
  pose proof (session_start_valid 0) as Hsv. apply valid_iff in Hsv.
  assert (Hmin_t : TRADING_START_HOUR cfg * 60 + TRADING_START_MINUTE cfg
                   <= hour t * 60 + minute t).
  { revert Hge. unfold session_start in *. unfold_us. simpl in *. lia. }
  assert (Hpos : 0 < hour c * 60 + minute c) by lia.
  destruct (minus_one_second_whole_minute c Hvc Hsc Huc Hpos)
    as (Hvp & Hop & Hmp & Hsp & Hup).
  rewrite (get_next_run_time_in_window (minus_one_second c) c Hvp).
  - rewrite Hop, Hoc.
    destruct (Z.ltb_spec (to_us (session_end cfg (ordinal t))) (to_us c));
      [lia | reflexivity].
  - rewrite Hop, Hoc. apply valid_iff in Hvp. apply valid_iff in Hvc.
    revert Hin. unfold session_start, session_end in *. unfold_us.
    rewrite Hop, Hsp, Hup, Hoc, Hsc, Huc. simpl in *. lia.
  - now apply candidate_of_pred.
Qed.

End PlannerFacts.

Lemma wf_config_split (cfg : Config) :
  wf_config cfg = true -> wf_window cfg = true /\ wf_interval cfg = true.
Proof. unfold wf_config. intros H. now apply andb_true_iff in H. Qed.

Lemma default_config_wf : wf_config default_config = true.
Proof. reflexivity. Qed.

Lemma spec_snap_minutes_eq (cfg : Config) (m : Z) :
  0 < SCAN_INTERVAL_MINUTES cfg ->
  spec_snap_minutes cfg m
  = (m / SCAN_INTERVAL_MINUTES cfg + 1) * SCAN_INTERVAL_MINUTES cfg.
Proof.
  intros Hpos. unfold spec_snap_minutes, ceil_div. f_equal.
  replace (m + 1 + SCAN_INTERVAL_MINUTES cfg - 1)
    with (m + 1 * SCAN_INTERVAL_MINUTES cfg) by lia.
  apply Z.div_add. lia.
Qed.

(* ------------------------------------------------------------------------- *)
(** ** Properties of the planner *)

(** C3. Before the session starts on its own date, the planner answers with
    the start of the session of that same date: hour TRADING_START_HOUR,
    minute TRADING_START_MINUTE, seconds and microseconds zero. *)
Theorem C3_pre_market (cfg : Config) (t : datetime) :
  wf_window cfg = true ->
  dt_ltb t (session_start cfg (ordinal t)) = true ->
  get_next_run_time cfg t
  = Ok (mk_datetime (ordinal t) (TRADING_START_HOUR cfg)
                    (TRADING_START_MINUTE cfg) 0 0).
Proof.
  intros Hwin Hlt. rewrite get_next_run_time_unfold by assumption.
  now rewrite Hlt.
Qed.

Lemma C3_pre_market_witness :
  let t := mk_datetime (ymd2ord 2024 1 5) 9 14 59 0 in
  wf_window default_config = true /\
  dt_ltb t (session_start default_config (ordinal t)) = true /\
  get_next_run_time default_config t
  = Ok (mk_datetime (ymd2ord 2024 1 5) 9 15 0 0).
Proof.
  intros t. split; [reflexivity|]. split; [reflexivity|].
  apply (C3_pre_market default_config t); reflexivity.
Defined.

(** C4. After the session has ended on its date, the planner answers with the
    start of the session of the next trading day, which is the first date
    after the current one that is neither a Saturday nor a Sunday.  The date
    asked about is any date of the calendar but its last, 9999-12-31, from
    which one more day cannot be added. *)
Theorem C4_after_hours (cfg : Config) (t : datetime) :
  wf_window cfg = true -> valid t = true ->
  1 <= ordinal t < MAXORDINAL ->
  dt_gtb t (session_end cfg (ordinal t)) = true ->
  get_next_run_time cfg t
  = Ok (session_start cfg (next_trading_day (ordinal t))) /\
  ordinal t < next_trading_day (ordinal t) <= MAXORDINAL /\
  weekday (next_trading_day (ordinal t)) < 5 /\
  forall d, ordinal t < d < next_trading_day (ordinal t) -> 5 <= weekday d.
Proof.
  intros Hwin Hv Hcal Hgt.
  destruct (next_trading_day_spec (ordinal t)) as (Hd & Hw & Hbetween).
  assert (Hroll : can_roll (ordinal t) = true) by (apply can_roll_iff; lia).
  split; [|split; [|split]]; auto.
  - rewrite get_next_run_time_unfold by assumption. rewrite Hgt.
    rewrite (rolled_ok cfg (ordinal t)) by lia.
    rewrite dt_gtb_us in Hgt by auto using session_end_valid. unbool.
    rewrite dt_ltb_us by auto using session_start_valid.
    pose proof (session_start_before_end cfg Hwin (ordinal t)).
    destruct (Z.ltb_spec (to_us t) (to_us (session_start cfg (ordinal t))));
      [lia | reflexivity].
  - unfold can_roll in Hroll. unbool. lia.
Qed.

Lemma C4_after_hours_witness :
  let t := mk_datetime (ymd2ord 2024 1 5) 15 15 1 0 in
  get_next_run_time default_config t
  = Ok (session_start default_config (next_trading_day (ordinal t))) /\
  next_trading_day (ordinal t) = ymd2ord 2024 1 8.
Proof.
  intros t. split; [|reflexivity].
  apply (C4_after_hours default_config t);
    [reflexivity | reflexivity | vm_compute; split; [discriminate | reflexivity] | reflexivity].
Defined.

(** C2. Exactly at the end of the session the planner does not answer with
    the end of the session again, nor with any instant of the same date: it
    answers with the start of the session of the next trading day.  The date
    is any date of the calendar but its last, 9999-12-31. *)
Theorem C2_at_session_end (cfg : Config) (d : Z) :
  wf_config cfg = true -> TRADING_END_HOUR cfg < 23 ->
  1 <= d < MAXORDINAL ->
  exists r,
    get_next_run_time cfg (session_end cfg d) = Ok r /\
    r = session_start cfg (next_trading_day d) /\
    r <> session_end cfg d /\
    d < ordinal r <= MAXORDINAL /\ weekday (ordinal r) < 5 /\
    forall x, d < x < ordinal r -> 5 <= weekday x.
Proof.
  intros Hwf Hh Hcal. destruct (wf_config_split cfg Hwf) as [Hwin Hint].
  exists (session_start cfg (next_trading_day d)).
  destruct (next_trading_day_spec d) as (Hd & Hw & Hbetween).
  assert (Hroll : can_roll d = true) by (apply can_roll_iff; lia).
  split; [|split; [reflexivity | split; [|split; [|split]]]].
  - pose proof (session_end_valid cfg Hwin d) as Hv.
    destruct (candidate_total cfg Hint (session_end cfg d) Hv Hh) as [c Hc].
    rewrite (get_next_run_time_in_window cfg Hwin Hint (session_end cfg d) c Hv);
      cbn [ordinal session_end]; auto.
    + pose proof (candidate_after cfg Hint _ _ Hv Hc).
      rewrite (rolled_ok cfg d) by lia.
      destruct (Z.ltb_spec (to_us (session_end cfg d)) (to_us c));
        [reflexivity | lia].
    + pose proof (session_start_before_end cfg Hwin d). lia.
  - intros E. apply (f_equal ordinal) in E. cbn [ordinal session_start session_end] in E.
    lia.
  - cbn [ordinal session_start]. unfold can_roll in Hroll. unbool. lia.
  - exact Hw.
  - exact Hbetween.
Qed.

Lemma C2_at_session_end_witness :
  wf_config default_config = true /\ TRADING_END_HOUR default_config < 23 /\
  1 <= ymd2ord 2024 1 5 < MAXORDINAL /\
  exists r,
    get_next_run_time default_config
      (session_end default_config (ymd2ord 2024 1 5)) = Ok r /\
    r = session_start default_config (next_trading_day (ymd2ord 2024 1 5)) /\
    r <> session_end default_config (ymd2ord 2024 1 5) /\
    ymd2ord 2024 1 5 < ordinal r <= MAXORDINAL /\ weekday (ordinal r) < 5 /\
    forall x, ymd2ord 2024 1 5 < x < ordinal r -> 5 <= weekday x.
Proof.
  assert (Hcal : 1 <= ymd2ord 2024 1 5 < MAXORDINAL)
    by (vm_compute; split; [discriminate | reflexivity]).
  split; [reflexivity|]. split; [reflexivity|]. split; [exact Hcal|].
  apply (C2_at_session_end default_config (ymd2ord 2024 1 5));
    [reflexivity | reflexivity | exact Hcal].
Defined.

(** C1. Inside the window, when the snapped candidate does not exceed the end
    of the session, the planner answers with the smallest grid instant that is
    strictly later than the current instant.  From a grid boundary (the start
    of the session, say) it advances by one whole interval; the minute the
    code computes is the one the specification words as
    ceil((minute+1)/interval) * interval, carried into the next hour at 60;
    and a candidate equal to the end of the session is returned as it is. *)
Theorem C1_in_window_snap (cfg : Config) (t c : datetime) :
  wf_config cfg = true -> valid t = true ->
  dt_ltb t (session_start cfg (ordinal t)) = false ->
  dt_gtb t (session_end cfg (ordinal t)) = false ->
  candidate cfg t = Ok c ->
  dt_gtb c (session_end cfg (ordinal t)) = false ->
  get_next_run_time cfg t = Ok c /\
  (is_grid cfg c /\ dt_ltb t c = true /\
   forall g, is_grid cfg g -> dt_ltb t g = true -> dt_ltb g c = false) /\
  (second t = 0 -> microsecond t = 0 ->
   minute t mod SCAN_INTERVAL_MINUTES cfg = 0 ->
   to_us c = to_us t + SCAN_INTERVAL_MINUTES cfg * us_per_minute) /\
  (t = session_start cfg (ordinal t) ->
   TRADING_START_MINUTE cfg mod SCAN_INTERVAL_MINUTES cfg = 0 ->
   to_us c = to_us (session_start cfg (ordinal t))
             + SCAN_INTERVAL_MINUTES cfg * us_per_minute) /\
  (snap_minutes cfg t = Ok (spec_snap_minutes cfg (minute t)) /\
   hour c * 60 + minute c = hour t * 60 + spec_snap_minutes cfg (minute t) /\
   0 <= minute c < 60) /\
  (c = session_end cfg (ordinal t) ->
   get_next_run_time cfg t = Ok (session_end cfg (ordinal t))).
Proof.
  intros Hwf Hv Hlo Hhi Hc Hce.
  destruct (wf_config_split cfg Hwf) as [Hwin Hint].
  destruct (candidate_inv cfg Hint t c Hv Hc) as (Hvc & Hoc & Hsc & Huc & Hmc & Hgc).
  pose proof (candidate_after cfg Hint t c Hv Hc) as Hafter.
  pose proof Hv as Hv'. apply valid_iff in Hv'.
  pose proof Hvc as Hvc'. apply valid_iff in Hvc'.
  destruct (snap_bounds cfg Hint (minute t) ltac:(lia)) as (Hs1 & Hs60 & Hsmod & Hsmin).
  pose proof Hint as Hi. unfold wf_interval in Hi. unbool.
  rewrite dt_ltb_us in Hlo by auto using session_start_valid.
  rewrite dt_gtb_us in Hhi, Hce by auto using session_end_valid. unbool.
  assert (Hres : get_next_run_time cfg t = Ok c).
  { rewrite (get_next_run_time_in_window cfg Hwin Hint t c Hv); auto.
    destruct (Z.ltb_spec (to_us (session_end cfg (ordinal t))) (to_us c));
      [lia | reflexivity]. }
  assert (Hboundary :
    second t = 0 -> microsecond t = 0 ->
    minute t mod SCAN_INTERVAL_MINUTES cfg = 0 ->
    to_us c = to_us t + SCAN_INTERVAL_MINUTES cfg * us_per_minute).
  { intros Hst Hut Hgt.
    assert (Em : minute t = SCAN_INTERVAL_MINUTES cfg
                            * (minute t / SCAN_INTERVAL_MINUTES cfg)).
    { pose proof (Z.div_mod (minute t) (SCAN_INTERVAL_MINUTES cfg) ltac:(lia)).
      lia. }
    unfold_us. rewrite Hoc, Hsc, Huc, Hst, Hut. lia. }
  repeat split.
  - exact Hres.
  - exact Hvc.
  - exact Hsc.
  - exact Huc.
  - exact Hgc.
  - rewrite dt_ltb_us by assumption. now apply Z.ltb_lt.
  - intros g (Hvg & Hsg & Hug & Hgg) Htg.
    rewrite dt_ltb_us in Htg by assumption. unbool.
    rewrite dt_ltb_us by assumption. apply Z.ltb_ge.
    pose proof Hvg as Hvg'. apply valid_iff in Hvg'.
    assert (Eg : minute g = minute g / SCAN_INTERVAL_MINUTES cfg
                            * SCAN_INTERVAL_MINUTES cfg).
    { pose proof (Z.div_mod (minute g) (SCAN_INTERVAL_MINUTES cfg) ltac:(lia)).
      lia. }
    specialize (Hsmin (minute g / SCAN_INTERVAL_MINUTES cfg)).
    revert Htg. unfold_us. rewrite Hoc, Hsc, Huc, Hsg, Hug. intros Htg.
    destruct (Z.lt_trichotomy (ordinal g) (ordinal t)) as [Ho | [Ho | Ho]];
      [lia | | lia].
    destruct (Z.lt_trichotomy (hour g) (hour t)) as [Hh | [Hh | Hh]];
      [lia | | lia].
    assert (minute t < minute g) by lia. lia.
  - exact Hboundary.
  - intros Et Hal. rewrite <- Et. apply Hboundary.
    + rewrite Et. reflexivity.
    + rewrite Et. reflexivity.
    + rewrite Et. exact Hal.
  - rewrite spec_snap_minutes_eq by lia. now apply snap_minutes_ok.
  - rewrite spec_snap_minutes_eq by lia. exact Hmc.
  - lia.
  - lia.
  - intros <-. exact Hres.
Qed.

Lemma C1_in_window_snap_witness :
  let t := mk_datetime (ymd2ord 2024 1 5) 15 14 0 0 in
  let c := mk_datetime (ymd2ord 2024 1 5) 15 15 0 0 in
  candidate default_config t = Ok c /\
  c = session_end default_config (ordinal t) /\
  get_next_run_time default_config t = Ok c.
Proof.
  intros t c. split; [reflexivity|]. split; [reflexivity|].
  apply (C1_in_window_snap default_config t c); reflexivity.
Defined.

(** At the very start of the session the planner answers with the second
    tick of the grid, 09:30. *)
Example at_session_start :
  get_next_run_time default_config (mk_datetime (ymd2ord 2024 1 5) 9 15 0 0)
  = Ok (mk_datetime (ymd2ord 2024 1 5) 9 30 0 0).
Proof. reflexivity. Qed.

(** C10. Strict progress: with the window 09:15 to 15:15 and the interval of
    15 minutes, whatever the planner answers is strictly later than the
    instant it was asked about, on each of its branches; and it does answer
    on every date of the calendar but the last, 9999-12-31, from which one
    more day cannot be added. *)
Theorem C10_strict_progress (now : datetime) :
  valid now = true ->
  (forall r, get_next_run_time default_config now = Ok r ->
             dt_ltb now r = true) /\
  (1 <= ordinal now < MAXORDINAL ->
   exists r, get_next_run_time default_config now = Ok r /\
             dt_ltb now r = true).
Proof.
  intros Hv.
  destruct (wf_config_split _ default_config_wf) as [Hwin Hint].
  assert (Hlater : forall r, get_next_run_time default_config now = Ok r ->
                             dt_ltb now r = true).
  { intros r Hr.
    destruct (get_next_run_time_later default_config Hwin Hint now r Hv Hr)
      as [Hvr Hlt].
    rewrite dt_ltb_us by assumption. now apply Z.ltb_lt. }
  split; [exact Hlater|].
  intros Hcal.
  destruct (get_next_run_time_total default_config Hwin Hint now Hv) as [r Hr];
    [reflexivity | lia |].
  exists r. split; [assumption | now apply Hlater].
Qed.

Lemma C10_strict_progress_witness :
  let now := mk_datetime (ymd2ord 2024 1 5) 15 15 0 0 in
  valid now = true /\ 1 <= ordinal now < MAXORDINAL /\
  exists r, get_next_run_time default_config now = Ok r /\ dt_ltb now r = true.
Proof.
  intros now.
  assert (Hcal : 1 <= ordinal now < MAXORDINAL)
    by (vm_compute; split; [discriminate | reflexivity]).
  split; [reflexivity|]. split; [exact Hcal|].
  apply (C10_strict_progress now); [reflexivity | exact Hcal].
Defined.

(** C6. Idempotence under re-evaluation: asking the planner again one second
    before the instant it returned gives that same instant; the planner does
    return an instant on every date of the calendar but the last. *)
Theorem C6_idempotent_replanning (t : datetime) :
  valid t = true ->
  (forall r, get_next_run_time default_config t = Ok r ->
             get_next_run_time default_config (minus_one_second r) = Ok r) /\
  (1 <= ordinal t < MAXORDINAL ->
   exists r,
     get_next_run_time default_config t = Ok r /\
     get_next_run_time default_config (minus_one_second r) = Ok r).
Proof.
  intros Hv.
  destruct (wf_config_split _ default_config_wf) as [Hwin Hint].
  assert (Hagain : forall r,
    get_next_run_time default_config t = Ok r ->
    get_next_run_time default_config (minus_one_second r) = Ok r).
  { intros r Hr.
    apply (get_next_run_time_again default_config Hwin Hint t r); auto.
    reflexivity. }
  split; [exact Hagain|].
  intros Hcal.
  destruct (get_next_run_time_total default_config Hwin Hint t Hv) as [r Hr];
    [reflexivity | lia |].
  exists r. split; [assumption | now apply Hagain].
Qed.

Lemma C6_idempotent_replanning_witness :
  let t := mk_datetime (ymd2ord 2024 1 5) 15 20 0 0 in
  valid t = true /\ 1 <= ordinal t < MAXORDINAL /\
  exists r,
    get_next_run_time default_config t = Ok r /\
    get_next_run_time default_config (minus_one_second r) = Ok r.
Proof.
  intros t.
  assert (Hcal : 1 <= ordinal t < MAXORDINAL)
    by (vm_compute; split; [discriminate | reflexivity]).
  split; [reflexivity|]. split; [exact Hcal|].
  apply (C6_idempotent_replanning t); [reflexivity | exact Hcal].
Defined.

(* ------------------------------------------------------------------------- *)
(** ** One round of the scheduler *)

Lemma jobs_run_app (tr1 tr2 : list event) :
  jobs_run (tr1 ++ tr2) = (jobs_run tr1 + jobs_run tr2)%nat.
Proof.
  induction tr1 as [| ev tr1 IH]; simpl; [reflexivity|].
  destruct ev; simpl; rewrite IH; reflexivity.
Qed.

Section SchedulerFacts.

Variable cfg : Config.
Variable read_cost : Z -> Z.
Variable job_run : Z -> Z * option exn.

Local Abbreviation iteration' := (iteration cfg read_cost job_run).
Local Abbreviation loop_body' := (loop_body cfg read_cost job_run).
Local Abbreviation main_loop' := (main_loop cfg read_cost job_run).

Lemma iteration_unfold (w : World) :
  iteration' w =
  let now := of_us (clock w) in
  if weekday (ordinal (second_reading read_cost w)) <? 5 then
    (next_run <- lift (get_next_run_time cfg now) ;;
     dispatch job_run now next_run)%sched (after_readings read_cost w)
  else
    (next_run <- lift (next_monday cfg now) ;;
     emit (EvInfo WeekendDetected) ;;
     sleep (wait_us next_run now))%sched (after_readings read_cost w).
Proof.
  unfold iteration, after_readings, second_reading, is_trading_day.
  unfold bind, get_ist_time, ret. simpl.
  rewrite <- app_assoc. simpl.
  destruct (weekday _ <? 5); reflexivity.
Qed.

Lemma sleep_ok (us : Z) (w : World) :
  0 <= us -> sleep us w = (Ok tt, mk_world (clock w + us) (trace w ++ [EvSleep us])).
Proof.
  intros H. unfold sleep. destruct (Z.ltb_spec us 0); [lia | reflexivity].
Qed.

Lemma job_trace (w : World) : trace (snd (job job_run w)) = trace w ++ [EvJob].
Proof. unfold job. destruct (job_run (clock w)) as [d [e |]]; reflexivity. Qed.

Lemma job_raises (w : World) (d : Z) (e : exn) :
  job_run (clock w) = (d, Some e) ->
  job job_run w = (Raise e, mk_world (clock w + d) (trace w ++ [EvJob])).
Proof. intros H. unfold job. now rewrite H. Qed.

(** The three ways out of [dispatch]. *)
Lemma dispatch_long_wait (now next_run : datetime) (w : World) :
  day_seconds * us_per_second < wait_us next_run now ->
  dispatch job_run now next_run w
  = (Ok tt, mk_world (clock w + wait_us next_run now)
                     (trace w ++ [EvInfo PastTradingHours;
                                  EvSleep (wait_us next_run now)])).
Proof.
  intros H. unfold dispatch.
  destruct (Z.gtb_spec (wait_us next_run now) (day_seconds * us_per_second));
    [|lia].
  unfold bind, emit. rewrite sleep_ok by (revert H; unfold day_seconds; unfold_us; lia).
  simpl. now rewrite <- app_assoc.
Qed.

Lemma dispatch_short_wait (now next_run : datetime) (w : World) :
  0 < wait_us next_run now <= day_seconds * us_per_second ->
  dispatch job_run now next_run w
  = job job_run
      (mk_world (clock w + wait_us next_run now)
                (trace w ++ [EvInfo (SleepingFor (wait_us next_run now / us_per_second)
                                                 next_run);
                             EvSleep (wait_us next_run now)])).
Proof.
  intros H. unfold dispatch.
  destruct (Z.gtb_spec (wait_us next_run now) (day_seconds * us_per_second));
    [lia|].
  destruct (Z.gtb_spec (wait_us next_run now) 0); [|lia].
  unfold bind, emit. rewrite sleep_ok by lia. simpl. now rewrite <- app_assoc.
Qed.

Lemma dispatch_no_wait (now next_run : datetime) (w : World) :
  wait_us next_run now <= 0 ->
  dispatch job_run now next_run w
  = job job_run (mk_world (clock w + 1 * us_per_second)
                          (trace w ++ [EvSleep (1 * us_per_second)])).
Proof.
  intros H. unfold dispatch.
  destruct (Z.gtb_spec (wait_us next_run now) (day_seconds * us_per_second))
    as [Hlong | _];
    [revert Hlong; unfold day_seconds; unfold_us; lia|].
  destruct (Z.gtb_spec (wait_us next_run now) 0); [lia|].
  unfold bind. rewrite sleep_ok by (unfold_us; lia). reflexivity.
Qed.

(** Nothing but the clock is carried from one round to the next. *)
Lemma clock_only_ret {A} (a : A) : clock_only (ret a).
Proof.
  intros clk. exists (Ok a), clk, []. intros tr. unfold ret.
  now rewrite app_nil_r.
Qed.

Lemma clock_only_lift {A} (r : result A) : clock_only (lift r).
Proof.
  intros clk. exists r, clk, []. intros tr. unfold lift.
  now rewrite app_nil_r.
Qed.

Lemma clock_only_bind {A B} (c : M A) (k : A -> M B) :
  clock_only c -> (forall a, clock_only (k a)) -> clock_only (bind c k).
Proof.
  intros Hc Hk clk. destruct (Hc clk) as (r & clk1 & evs1 & H1).
  destruct r as [a | e].
  - destruct (Hk a clk1) as (r2 & clk2 & evs2 & H2).
    exists r2, clk2, (evs1 ++ evs2). intros tr. unfold bind.
    rewrite H1, H2. now rewrite app_assoc.
  - exists (Raise e), clk1, evs1. intros tr. unfold bind. now rewrite H1.
Qed.

Lemma clock_only_try {A} (c : M A) (h : exn -> M A) :
  clock_only c -> (forall e, clock_only (h e)) -> clock_only (try_except c h).
Proof.
  intros Hc Hh clk. destruct (Hc clk) as (r & clk1 & evs1 & H1).
  destruct r as [a | e].
  - exists (Ok a), clk1, evs1. intros tr. unfold try_except. now rewrite H1.
  - destruct (Hh e clk1) as (r2 & clk2 & evs2 & H2).
    exists r2, clk2, (evs1 ++ evs2). intros tr. unfold try_except.
    rewrite H1, H2. now rewrite app_assoc.
Qed.

Lemma clock_only_emit (ev : event) : clock_only (emit ev).
Proof. intros clk. exists (Ok tt), clk, [ev]. reflexivity. Qed.

Lemma clock_only_sleep (us : Z) : clock_only (sleep us).
Proof.
  intros clk. unfold sleep. destruct (us <? 0).
  - exists (Raise ValueError), clk, []. intros tr. now rewrite app_nil_r.
  - exists (Ok tt), (clk + us), [EvSleep us]. reflexivity.
Qed.

Lemma clock_only_get_ist_time : clock_only (get_ist_time read_cost).
Proof.
  intros clk. exists (Ok (of_us clk)), (clk + read_cost clk), [EvClock (of_us clk)].
  reflexivity.
Qed.

Lemma clock_only_job : clock_only (job job_run).
Proof.
  intros clk. unfold job. simpl. destruct (job_run clk) as [d [e |]].
  - exists (Raise e), (clk + d), [EvJob]. reflexivity.
  - exists (Ok tt), (clk + d), [EvJob]. reflexivity.
Qed.

Lemma clock_only_dispatch (now next_run : datetime) :
  clock_only (dispatch job_run now next_run).
Proof.
  unfold dispatch.
  destruct (_ >? day_seconds * us_per_second);
    [| destruct (_ >? 0)];
    repeat first [ apply clock_only_bind; [| intros ?]
                 | apply clock_only_emit | apply clock_only_sleep
                 | apply clock_only_job ].
Qed.

Lemma clock_only_iteration : clock_only iteration'.
Proof.
  unfold iteration, is_trading_day.
  apply clock_only_bind; [apply clock_only_get_ist_time | intros now].
  apply clock_only_bind.
  { apply clock_only_bind; [apply clock_only_get_ist_time | intros ?].
    apply clock_only_ret. }
  intros trading. destruct (negb trading);
    repeat first [ apply clock_only_bind; [| intros ?]
                 | apply clock_only_lift | apply clock_only_emit
                 | apply clock_only_sleep | apply clock_only_dispatch ].
Qed.

Lemma clock_only_on_error (e : exn) : clock_only (on_error e).
Proof.
  unfold on_error.
  apply clock_only_bind; [apply clock_only_emit | intros ?].
  apply clock_only_sleep.
Qed.

Lemma clock_only_loop_body : clock_only loop_body'.
Proof.
  apply clock_only_try; [apply clock_only_iteration | apply clock_only_on_error].
Qed.

(** Every round opens by reading the clock. *)
Lemma loop_body_reads_clock (clk : Z) :
  exists r clk' evs,
    forall tr, loop_body' (mk_world clk tr)
               = (r, mk_world clk' (tr ++ EvClock (of_us clk) :: evs)).
Proof.
  assert (Hk : forall now, clock_only
    (try_except
       (trading <- is_trading_day read_cost ;;
        if negb trading then
          next_run <- lift (next_monday cfg now) ;;
          emit (EvInfo WeekendDetected) ;;
          sleep (wait_us next_run now)
        else
          next_run <- lift (get_next_run_time cfg now) ;;
          dispatch job_run now next_run)%sched
       on_error)).
  { intros now. apply clock_only_try; [| apply clock_only_on_error].
    unfold is_trading_day. apply clock_only_bind.
    { apply clock_only_bind; [apply clock_only_get_ist_time | intros ?].
      apply clock_only_ret. }
    intros trading. destruct (negb trading);
      repeat first [ apply clock_only_bind; [| intros ?]
                   | apply clock_only_lift | apply clock_only_emit
                   | apply clock_only_sleep | apply clock_only_dispatch ]. }
  destruct (Hk (of_us clk) (clk + read_cost clk)) as (r & clk' & evs & H).
  exists r, clk', evs. intros tr.
  specialize (H (tr ++ [EvClock (of_us clk)])).
  rewrite <- app_assoc in H. simpl in H. rewrite <- H.
  unfold loop_body, try_except, iteration, bind, get_ist_time. simpl.
  reflexivity.
Qed.

(** The [except] clause itself never raises. *)
Lemma on_error_ok (e : exn) (w : World) :
  on_error e w
  = (Ok tt, mk_world (clock w + cooldown_seconds * us_per_second)
                     (trace w ++ [EvError e;
                                  EvSleep (cooldown_seconds * us_per_second)])).
Proof.
  unfold on_error, bind, emit. rewrite sleep_ok by (vm_compute; discriminate).
  simpl. now rewrite <- app_assoc.
Qed.

Lemma loop_body_ok (w : World) : exists w', loop_body' w = (Ok tt, w').
Proof.
  unfold loop_body, try_except.
  destruct (iteration' w) as [[[] | e] w1]; [eauto|].
  rewrite on_error_ok. eauto.
Qed.

(** No number of rounds ends in an exception. *)
Lemma main_loop_ok (n : nat) (w : World) :
  exists w', main_loop' n w = (Ok tt, w').
Proof.
  revert w. induction n as [| n IH]; intros w; simpl.
  - unfold ret. eauto.
  - unfold bind. destruct (loop_body_ok w) as [w1 H1]. rewrite H1. apply IH.
Qed.

(** The week-end branch. *)
Lemma next_monday_ok (now : datetime) :
  wf_window cfg = true ->
  next_monday cfg now
  = Ok (session_start cfg (ordinal now + (7 - weekday (ordinal now)))).
Proof.
  intros Hwin. pose proof (session_start_valid cfg Hwin 0) as Hv.
  unfold next_monday, replace, session_start, add_days. simpl.
  unfold valid, session_start in Hv. simpl in Hv. now rewrite Hv.
Qed.

Lemma next_monday_is_monday (d : Z) : weekday (d + (7 - weekday d)) = 0.
Proof.
  rewrite weekday_add.
  replace (weekday d + (7 - weekday d)) with 7 by lia. reflexivity.
Qed.

Lemma next_monday_wait (now : datetime) :
  wf_window cfg = true -> valid now = true ->
  0 < wait_us (session_start cfg (ordinal now + (7 - weekday (ordinal now)))) now.
Proof.
  intros Hwin Hv. apply valid_iff in Hv.
  pose proof (session_start_valid cfg Hwin 0) as Hs. apply valid_iff in Hs.
  pose proof (weekday_range (ordinal now)) as Hr.
  unfold wait_us, session_start in *. unfold_us. fields. lia.
Qed.

Lemma iteration_weekend (w : World) :
  wf_window cfg = true ->
  (weekday (ordinal (second_reading read_cost w)) <? 5) = false ->
  let now := of_us (clock w) in
  let monday := session_start cfg (ordinal now + (7 - weekday (ordinal now))) in
  iteration' w
  = (Ok tt, mk_world (clock (after_readings read_cost w) + wait_us monday now)
                     (trace (after_readings read_cost w)
                      ++ [EvInfo WeekendDetected; EvSleep (wait_us monday now)])).
Proof.
  intros Hwin Hwe now monday. rewrite iteration_unfold. rewrite Hwe.
  fold now. unfold bind at 1. unfold lift. rewrite next_monday_ok by assumption.
  fold monday. unfold bind, emit.
  rewrite sleep_ok
    by (apply Z.lt_le_incl, next_monday_wait; [assumption | apply of_us_valid]).
  simpl. now rewrite <- app_assoc.
Qed.

(** The trading-day branch. *)
Lemma iteration_trading_day (w : World) (next_run : datetime) :
  (weekday (ordinal (second_reading read_cost w)) <? 5) = true ->
  get_next_run_time cfg (of_us (clock w)) = Ok next_run ->
  iteration' w
  = dispatch job_run (of_us (clock w)) next_run (after_readings read_cost w).
Proof.
  intros Htd Hnr. rewrite iteration_unfold. rewrite Htd.
  unfold bind at 1. unfold lift. now rewrite Hnr.
Qed.

End SchedulerFacts.

(* ------------------------------------------------------------------------- *)
(** ** Properties of the scheduler *)

(** C8. On a reading that is not a trading day the round computes the start
    of the session of next Monday, as [now] plus (7 minus the weekday of
    [now]) days with the time of day replaced, sleeps for the whole wait
    without running the job, and the next round starts over from a fresh
    reading of the clock.  From a Saturday the target is two days later, from
    a Sunday one day later, and it is a Monday in either case. *)
Theorem C8_weekend_sleep (cfg : Config) (read_cost : Z -> Z)
    (job_run : Z -> Z * option exn) (w : World) :
  wf_window cfg = true ->
  (weekday (ordinal (second_reading read_cost w)) <? 5) = false ->
  let now := of_us (clock w) in
  let monday := session_start cfg (ordinal now + (7 - weekday (ordinal now))) in
  let w' :=
    mk_world (clock (after_readings read_cost w) + wait_us monday now)
             (trace (after_readings read_cost w)
              ++ [EvInfo WeekendDetected; EvSleep (wait_us monday now)]) in
  next_monday cfg now = Ok monday /\
  weekday (ordinal monday) = 0 /\
  (weekday (ordinal now) = 5 -> ordinal monday = ordinal now + 2) /\
  (weekday (ordinal now) = 6 -> ordinal monday = ordinal now + 1) /\
  0 < wait_us monday now /\
  iteration cfg read_cost job_run w = (Ok tt, w') /\
  jobs_run (trace w') = jobs_run (trace w) /\
  (forall n, main_loop cfg read_cost job_run (S n) w
             = main_loop cfg read_cost job_run n w') /\
  (exists r clk' evs, forall tr,
     loop_body cfg read_cost job_run (mk_world (clock w') tr)
     = (r, mk_world clk' (tr ++ EvClock (of_us (clock w')) :: evs))).
Proof.
  intros Hwin Hwe now monday w'.
  pose proof (iteration_weekend cfg read_cost job_run w Hwin Hwe) as Hit.
  fold now monday w' in Hit.
  split; [now apply next_monday_ok|].
  change (ordinal monday) with (ordinal now + (7 - weekday (ordinal now))).
  split; [apply next_monday_is_monday|].
  split; [intros H5; rewrite H5; reflexivity|].
  split; [intros H6; rewrite H6; reflexivity|].
  split; [apply next_monday_wait; [assumption | apply of_us_valid]|].
  split; [exact Hit|].
  split.
  { unfold w', after_readings. simpl. rewrite !jobs_run_app. simpl. lia. }
  split.
  { intros n. simpl. unfold bind, loop_body, try_except. now rewrite Hit. }
  apply loop_body_reads_clock.
Qed.

Lemma C8_weekend_sleep_witness :
  let w := mk_world (to_us (mk_datetime (ymd2ord 2024 1 6) 10 0 0 0)) [] in
  let job_run := fun _ : Z => (0, @None exn) in
  wf_window default_config = true /\
  (weekday (ordinal (second_reading (fun _ => 0) w)) <? 5) = false /\
  iteration default_config (fun _ => 0) job_run w
  = (Ok tt,
     mk_world (to_us (mk_datetime (ymd2ord 2024 1 8) 9 15 0 0))
              [EvClock (mk_datetime (ymd2ord 2024 1 6) 10 0 0 0);
               EvClock (mk_datetime (ymd2ord 2024 1 6) 10 0 0 0);
               EvInfo WeekendDetected;
               EvSleep (170100 * us_per_second)]).
Proof.
  intros w job_run. split; [reflexivity|]. split; [reflexivity|].
  apply (C8_weekend_sleep default_config (fun _ => 0) job_run w); reflexivity.
Defined.

(** C9. On a trading day, a wait of more than 24 hours until the planner's
    instant makes the round sleep and start over without running the job;
    with a wait of at most 24 hours the round sleeps (one second when the
    wait is not positive) and then runs the job, once. *)
Theorem C9_wait_gates_job (cfg : Config) (read_cost : Z -> Z)
    (job_run : Z -> Z * option exn) (w : World) (next_run : datetime) :
  (weekday (ordinal (second_reading read_cost w)) <? 5) = true ->
  get_next_run_time cfg (of_us (clock w)) = Ok next_run ->
  let now := of_us (clock w) in
  let wait := wait_us next_run now in
  let w2 := after_readings read_cost w in
  let after := snd (iteration cfg read_cost job_run w) in
  (day_seconds * us_per_second < wait ->
   iteration cfg read_cost job_run w
   = (Ok tt, mk_world (clock w2 + wait)
                      (trace w2 ++ [EvInfo PastTradingHours; EvSleep wait])) /\
   jobs_run (trace after) = jobs_run (trace w)) /\
  (wait <= day_seconds * us_per_second ->
   let nap := if wait >? 0 then wait else 1 * us_per_second in
   (exists pre,
      jobs_run pre = 0%nat /\
      iteration cfg read_cost job_run w
      = job job_run (mk_world (clock w2 + nap)
                              (trace w2 ++ pre ++ [EvSleep nap]))) /\
   jobs_run (trace after) = S (jobs_run (trace w))) /\
  (forall now' next_run' w0,
     wait_us next_run' now' <= 0 ->
     dispatch job_run now' next_run' w0
     = job job_run (mk_world (clock w0 + 1 * us_per_second)
                             (trace w0 ++ [EvSleep (1 * us_per_second)]))).
Proof.
  intros Htd Hnr now wait w2 after.
  pose proof (iteration_trading_day cfg read_cost job_run w next_run Htd Hnr)
    as Hit.
  fold now w2 in Hit.
  assert (Hw2 : jobs_run (trace w2) = jobs_run (trace w)).
  { unfold w2, after_readings. simpl. rewrite jobs_run_app. simpl. lia. }
  split; [|split].
  - intros Hlong. unfold after. rewrite Hit.
    rewrite dispatch_long_wait by assumption. fold wait. split; [reflexivity|].
    cbn [snd trace]. rewrite jobs_run_app, Hw2. simpl. lia.
  - intros Hshort nap.
    destruct (Z.gtb_spec wait 0) as [Hpos | Hnon].
    + assert (Hd : dispatch job_run now next_run w2
                   = job job_run
                       (mk_world (clock w2 + wait)
                          (trace w2
                           ++ [EvInfo (SleepingFor (wait / us_per_second) next_run);
                               EvSleep wait])))
        by (apply dispatch_short_wait; fold wait; lia).
      split.
      * exists [EvInfo (SleepingFor (wait / us_per_second) next_run)].
        split; [reflexivity|]. rewrite Hit. exact Hd.
      * unfold after. rewrite Hit, Hd, job_trace. cbn [trace].
        rewrite !jobs_run_app, Hw2. simpl. lia.
    + assert (Hd : dispatch job_run now next_run w2
                   = job job_run
                       (mk_world (clock w2 + 1 * us_per_second)
                          (trace w2 ++ [EvSleep (1 * us_per_second)])))
        by (apply dispatch_no_wait; fold wait; lia).
      split.
      * exists []. split; [reflexivity|]. rewrite Hit. exact Hd.
      * unfold after. rewrite Hit, Hd, job_trace. cbn [trace].
        rewrite !jobs_run_app, Hw2. simpl. lia.
  - intros now' next_run' w0 Hnon. now apply dispatch_no_wait.
Qed.

Lemma C9_wait_gates_job_witness :
  let w := mk_world (to_us (mk_datetime (ymd2ord 2024 1 8) 10 0 0 0)) [] in
  let job_run := fun _ : Z => (0, @None exn) in
  let next_run := mk_datetime (ymd2ord 2024 1 8) 10 15 0 0 in
  (weekday (ordinal (second_reading (fun _ => 0) w)) <? 5) = true /\
  get_next_run_time default_config (of_us (clock w)) = Ok next_run /\
  wait_us next_run (of_us (clock w)) = 900 * us_per_second /\
  jobs_run (trace (snd (iteration default_config (fun _ => 0) job_run w)))
  = S (jobs_run (trace w)).
Proof.
  intros w job_run next_run.
  assert (Htd : (weekday (ordinal (second_reading (fun _ => 0) w)) <? 5) = true)
    by reflexivity.
  assert (Hnr : get_next_run_time default_config (of_us (clock w)) = Ok next_run)
    by reflexivity.
  split; [exact Htd|]. split; [exact Hnr|]. split; [reflexivity|].
  destruct (C9_wait_gates_job default_config (fun _ => 0) job_run w next_run
              Htd Hnr) as (_ & Hshort & _).
  apply Hshort. vm_compute. discriminate.
Defined.

(** A Friday evening: the wait until Monday morning is longer than a day, and
    the round ends without the job. *)
Example friday_evening :
  let w := mk_world (to_us (mk_datetime (ymd2ord 2024 1 5) 15 20 0 0)) [] in
  iteration default_config (fun _ => 0) (fun _ => (0, None)) w
  = (Ok tt,
     mk_world (to_us (mk_datetime (ymd2ord 2024 1 8) 9 15 0 0))
              [EvClock (mk_datetime (ymd2ord 2024 1 5) 15 20 0 0);
               EvClock (mk_datetime (ymd2ord 2024 1 5) 15 20 0 0);
               EvInfo PastTradingHours;
               EvSleep (237300 * us_per_second)]).
Proof. vm_compute. reflexivity. Qed.

(** C7. Whatever exception one round raises, a failure of the job included,
    is caught: the round logs it and sleeps the cooldown of 60 seconds, the
    loop goes on with its next round, which opens with a fresh reading of the
    clock and depends on nothing else; no number of rounds ends in an
    exception. *)
Theorem C7_failure_cooldown (cfg : Config) (read_cost : Z -> Z)
    (job_run : Z -> Z * option exn) (w w' : World) (e : exn) :
  iteration cfg read_cost job_run w = (Raise e, w') ->
  let cooled :=
    mk_world (clock w' + 60 * us_per_second)
             (trace w' ++ [EvError e; EvSleep (60 * us_per_second)]) in
  loop_body cfg read_cost job_run w = (Ok tt, cooled) /\
  (forall n, main_loop cfg read_cost job_run (S n) w
             = main_loop cfg read_cost job_run n cooled) /\
  (exists r clk' evs, forall tr,
     loop_body cfg read_cost job_run (mk_world (clock cooled) tr)
     = (r, mk_world clk' (tr ++ EvClock (of_us (clock cooled)) :: evs))) /\
  (forall n w0, exists w1, main_loop cfg read_cost job_run n w0 = (Ok tt, w1)) /\
  (forall w0 d e0,
     job_run (clock w0) = (d, Some e0) ->
     job job_run w0 = (Raise e0, mk_world (clock w0 + d) (trace w0 ++ [EvJob]))).
Proof.
  intros Hit cooled.
  assert (Hbody : loop_body cfg read_cost job_run w = (Ok tt, cooled)).
  { unfold loop_body, try_except. rewrite Hit. apply on_error_ok. }
  split; [exact Hbody|].
  split.
  { intros n. cbn [main_loop]. unfold bind. now rewrite Hbody. }
  split; [apply loop_body_reads_clock|].
  split; [intros n w0; apply main_loop_ok|].
  intros w0 d e0. apply job_raises.
Qed.

Lemma C7_failure_cooldown_witness :
  let w := mk_world (to_us (mk_datetime (ymd2ord 2024 1 8) 10 0 0 0)) [] in
  let job_run := fun _ : Z => (5 * us_per_second, Some FetchError) in
  let w' :=
    mk_world (to_us (mk_datetime (ymd2ord 2024 1 8) 10 15 5 0))
             [EvClock (mk_datetime (ymd2ord 2024 1 8) 10 0 0 0);
              EvClock (mk_datetime (ymd2ord 2024 1 8) 10 0 0 0);
              EvInfo (SleepingFor 900 (mk_datetime (ymd2ord 2024 1 8) 10 15 0 0));
              EvSleep (900 * us_per_second);
              EvJob] in
  iteration default_config (fun _ => 0) job_run w = (Raise FetchError, w') /\
  loop_body default_config (fun _ => 0) job_run w
  = (Ok tt,
     mk_world (to_us (mk_datetime (ymd2ord 2024 1 8) 10 16 5 0))
              (trace w' ++ [EvError FetchError; EvSleep (60 * us_per_second)])).
Proof.
  intros w job_run w'.
  assert (Hit : iteration default_config (fun _ => 0) job_run w
                = (Raise FetchError, w')) by (vm_compute; reflexivity).
  split; [exact Hit|].
  apply (C7_failure_cooldown default_config (fun _ => 0) job_run w w' FetchError Hit).
Defined.

(** C5 as the code has it.  The planner does not look at the weekday of the
    date it is asked about: on a Saturday at 10:00 it answers 10:15 of that
    Saturday.  It is the scheduler that tests the weekday first, and from a
    Saturday at 10:00 it sleeps until 09:15 of the Monday that follows,
    skipping the Sunday, without asking the planner and without running the
    job. *)
Theorem C5_saturday_morning (d : Z) (job_run : Z -> Z * option exn)
    (tr : list event) :
  weekday d = 5 ->
  let t := mk_datetime d 10 0 0 0 in
  let monday := mk_datetime (d + 2) 9 15 0 0 in
  get_next_run_time default_config t = Ok (mk_datetime d 10 15 0 0) /\
  weekday (d + 1) = 6 /\ weekday (d + 2) = 0 /\
  next_monday default_config t = Ok monday /\
  iteration default_config (fun _ => 0) job_run (mk_world (to_us t) tr)
  = (Ok tt,
     mk_world (to_us monday)
              (tr ++ [EvClock t; EvClock t; EvInfo WeekendDetected;
                      EvSleep (wait_us monday t)])).
Proof.
  intros Hsat t monday.
  assert (Hwin : wf_window default_config = true) by reflexivity.
  assert (Hint : wf_interval default_config = true) by reflexivity.
  assert (Hv : valid t = true) by reflexivity.
  assert (Hsun : weekday (d + 1) = 6) by (rewrite weekday_succ, Hsat; reflexivity).
  assert (Hmon : weekday (d + 2) = 0).
  { replace (d + 2) with (d + 1 + 1) by lia. rewrite weekday_succ, Hsun.
    reflexivity. }
  assert (Hnm : next_monday default_config t = Ok monday).
  { rewrite next_monday_ok by assumption. unfold t, session_start. fields.
    rewrite Hsat. reflexivity. }
  split.
  { rewrite (get_next_run_time_in_window default_config Hwin Hint t
               (mk_datetime d 10 15 0 0) Hv).
    - match goal with |- (if ?b then _ else _) = _ =>
        replace b with false; [reflexivity|] end.
      symmetry. apply Z.ltb_ge. unfold t, session_end. unfold_us. fields.
      cbn [TRADING_END_HOUR TRADING_END_MINUTE default_config]. lia.
    - unfold t, session_start, session_end. unfold_us. fields.
      cbn [TRADING_START_HOUR TRADING_START_MINUTE TRADING_END_HOUR
           TRADING_END_MINUTE default_config]. lia.
    - reflexivity. }
  split; [exact Hsun|]. split; [exact Hmon|]. split; [exact Hnm|].
  pose proof (iteration_weekend default_config (fun _ => 0) job_run
                (mk_world (to_us t) tr) Hwin) as Hit.
  unfold second_reading, after_readings in Hit. cbn [clock trace] in Hit.
  rewrite !Z.add_0_r in Hit. rewrite (of_us_to_us t Hv) in Hit.
  assert (Hwe : (weekday (ordinal t) <? 5) = false)
    by (unfold t; fields; rewrite Hsat; reflexivity).
  specialize (Hit Hwe). cbn zeta in Hit.
  assert (Em : session_start default_config
                 (ordinal t + (7 - weekday (ordinal t))) = monday).
  { unfold t, session_start. fields. rewrite Hsat. reflexivity. }
  rewrite Em in Hit. rewrite Hit. f_equal. f_equal.
  - unfold wait_us. lia.
  - now rewrite <- app_assoc.
Qed.

Lemma C5_saturday_morning_witness :
  let d := ymd2ord 2024 1 6 in
  let t := mk_datetime d 10 0 0 0 in
  weekday d = 5 /\
  get_next_run_time default_config t = Ok (mk_datetime d 10 15 0 0) /\
  next_monday default_config t
  = Ok (mk_datetime (ymd2ord 2024 1 8) 9 15 0 0).
Proof.
  intros d t.
  assert (Hsat : weekday d = 5) by reflexivity.
  split; [exact Hsat|].
  destruct (C5_saturday_morning d (fun _ => (0, None)) [] Hsat)
    as (Hplan & _ & _ & Hmon & _).
  split; [exact Hplan | exact Hmon].
Defined.

(** The claim as it was stated fails on Saturday the 6th of January 2024. *)
Lemma C5_saturday_counterexample :
  let t := mk_datetime (ymd2ord 2024 1 6) 10 0 0 0 in
  weekday (ordinal t) = 5 /\
  get_next_run_time default_config t
  = Ok (mk_datetime (ymd2ord 2024 1 6) 10 15 0 0) /\
  get_next_run_time default_config t
  <> Ok (mk_datetime (ymd2ord 2024 1 8) 9 15 0 0).
Proof.
  intros t. split; [reflexivity|]. split; [reflexivity|].
  vm_compute. discriminate.
Qed.

(* ------------------------------------------------------------------------- *)
(** ** The scenario of the specification, evaluated *)

Example ordinal_of_a_saturday :
  ymd2ord 2024 1 6 = 738891 /\ weekday (ymd2ord 2024 1 6) = 5.
Proof. split; reflexivity. Qed.

Example skip_weekend_from_saturday :
  skip_weekend (ymd2ord 2024 1 6) = ymd2ord 2024 1 8.
Proof. reflexivity. Qed.

(** 09:14:59 gives 09:15:00. *)
Example just_before_open :
  get_next_run_time default_config (mk_datetime (ymd2ord 2024 1 5) 9 14 59 0)
  = Ok (mk_datetime (ymd2ord 2024 1 5) 9 15 0 0).
Proof. reflexivity. Qed.

(** 15:14:00 gives 15:15:00, the end of the session. *)
Example last_tick :
  get_next_run_time default_config (mk_datetime (ymd2ord 2024 1 5) 15 14 0 0)
  = Ok (mk_datetime (ymd2ord 2024 1 5) 15 15 0 0).
Proof. reflexivity. Qed.

(** 15:15:00 on a Friday gives 09:15:00 of the Monday after. *)
Example at_close_on_friday :
  get_next_run_time default_config (mk_datetime (ymd2ord 2024 1 5) 15 15 0 0)
  = Ok (mk_datetime (ymd2ord 2024 1 8) 9 15 0 0).
Proof. vm_compute. reflexivity. Qed.

(** 15:15:01 on a Thursday gives 09:15:00 of the Friday. *)
Example just_after_close :
  get_next_run_time default_config (mk_datetime (ymd2ord 2024 1 4) 15 15 1 0)
  = Ok (mk_datetime (ymd2ord 2024 1 5) 9 15 0 0).
Proof. vm_compute. reflexivity. Qed.

(** The end of the calendar.  On 9999-12-31, a Friday, the planner still
    answers inside the session, and raises OverflowError once it has to add a
    day. *)
Example last_date_of_calendar :
  ymd2ord 9999 12 31 = MAXORDINAL /\ weekday MAXORDINAL = 4.
Proof. split; reflexivity. Qed.

Example last_date_in_session :
  get_next_run_time default_config (mk_datetime MAXORDINAL 15 0 0 0)
  = Ok (mk_datetime MAXORDINAL 15 15 0 0).
Proof. reflexivity. Qed.

Example last_date_at_close :
  get_next_run_time default_config (mk_datetime MAXORDINAL 15 15 0 0)
  = Raise OverflowError.
Proof. vm_compute. reflexivity. Qed.

Example last_date_after_close :
  get_next_run_time default_config (mk_datetime MAXORDINAL 16 0 0 0)
  = Raise OverflowError.
Proof. vm_compute. reflexivity. Qed.

(** The week-end before it still rolls over, to Monday 9999-12-27. *)
Example last_weekend_rolls_over :
  get_next_run_time default_config (mk_datetime (ymd2ord 9999 12 25) 16 0 0 0)
  = Ok (mk_datetime (ymd2ord 9999 12 27) 9 15 0 0).
Proof. vm_compute. reflexivity. Qed.

(** An interval that does not divide the hour makes the planner raise. *)
Example interval_of_seven :
  get_next_run_time (mk_config 9 15 15 15 7)
                    (mk_datetime (ymd2ord 2024 1 5) 10 58 0 0)
  = Raise ValueError.
Proof. reflexivity. Qed.

(* ------------------------------------------------------------------------- *)
(** ** Further properties of the planner *)

Lemma next_trading_day_within_three (d : Z) : next_trading_day d <= d + 3.
Proof.
  unfold next_trading_day. rewrite skip_weekend_closed.
  destruct (weekday (d + 1) =? 5); [lia|].
  destruct (weekday (d + 1) =? 6); lia.
Qed.

(** The three ways in which the planner answers. *)
Lemma get_next_run_time_shape (cfg : Config) (t r : datetime) :
  wf_config cfg = true -> valid t = true ->
  get_next_run_time cfg t = Ok r ->
  (r = session_start cfg (ordinal t) /\
   to_us t < to_us (session_start cfg (ordinal t))) \/
  (r = session_start cfg (next_trading_day (ordinal t)) /\
   to_us (session_start cfg (ordinal t)) <= to_us t /\
   (to_us (session_end cfg (ordinal t)) < to_us t \/
    exists c, candidate cfg t = Ok c /\
              to_us (session_end cfg (ordinal t)) < to_us c)) \/
  (candidate cfg t = Ok r /\
   to_us (session_start cfg (ordinal t)) <= to_us t /\
   to_us r <= to_us (session_end cfg (ordinal t))).
Proof.
  intros Hwf Hv Hr. destruct (wf_config_split cfg Hwf) as [Hwin Hint].
  rewrite get_next_run_time_unfold in Hr by assumption.
  rewrite dt_ltb_us, dt_gtb_us in Hr
    by auto using session_start_valid, session_end_valid.
  destruct (Z.ltb_spec (to_us t) (to_us (session_start cfg (ordinal t)))).
  { injection Hr as <-. now left. }
  destruct (Z.ltb_spec (to_us (session_end cfg (ordinal t))) (to_us t)).
  { apply rolled_inv in Hr. destruct Hr as [-> _]. right. left. auto. }
  destruct (candidate cfg t) as [c | e] eqn:Hc; [|discriminate].
  cbn [rbind] in Hr.
  destruct (candidate_inv cfg Hint t c Hv Hc) as (Hvc & _).
  rewrite dt_gtb_us in Hr by auto using session_end_valid.
  destruct (Z.ltb_spec (to_us (session_end cfg (ordinal t))) (to_us c)).
  - apply rolled_inv in Hr. destruct Hr as [-> _].
    right. left. repeat split; auto. right. exists c. auto.
  - injection Hr as <-. right. right. auto.
Qed.

(** X1. Whatever the planner returns is a whole minute inside the session of
    its own date, and it is the start of that session or a grid instant. *)
Theorem planner_answer_in_session (cfg : Config) (t r : datetime) :
  wf_config cfg = true -> valid t = true ->
  get_next_run_time cfg t = Ok r ->
  valid r = true /\ second r = 0 /\ microsecond r = 0 /\
  dt_ltb r (session_start cfg (ordinal r)) = false /\
  dt_gtb r (session_end cfg (ordinal r)) = false /\
  (r = session_start cfg (ordinal r) \/ is_grid cfg r).
Proof.
  intros Hwf Hv Hr. destruct (wf_config_split cfg Hwf) as [Hwin Hint].
  assert (Hstart : forall d,
    let s := session_start cfg d in
    valid s = true /\ second s = 0 /\ microsecond s = 0 /\
    dt_ltb s (session_start cfg (ordinal s)) = false /\
    dt_gtb s (session_end cfg (ordinal s)) = false /\
    (s = session_start cfg (ordinal s) \/ is_grid cfg s)).
  { intros d s. pose proof (session_start_valid cfg Hwin d) as Hs.
    pose proof (session_start_before_end cfg Hwin d).
    change (ordinal s) with d. subst s.
    repeat split; auto.
    - rewrite dt_ltb_us by auto using session_start_valid.
      apply Z.ltb_ge. lia.
    - rewrite dt_gtb_us by auto using session_end_valid.
      apply Z.ltb_ge. lia. }
  destruct (get_next_run_time_shape cfg t r Hwf Hv Hr)
    as [[-> _] | [[-> _] | (Hc & Hlo & Hhi)]]; [apply Hstart | apply Hstart |].
  destruct (candidate_inv cfg Hint t r Hv Hc) as (Hvr & Hor & Hsr & Hur & Hmr & Hgr).
  pose proof (candidate_after cfg Hint t r Hv Hc) as Hafter.
  repeat split; auto.
  - rewrite dt_ltb_us by auto using session_start_valid.
    apply Z.ltb_ge. rewrite Hor. lia.
  - rewrite dt_gtb_us by auto using session_end_valid.
    apply Z.ltb_ge. rewrite Hor. lia.
  - right. repeat split; auto.
Qed.

Lemma planner_answer_in_session_witness :
  let t := mk_datetime (ymd2ord 2024 1 5) 11 7 42 13 in
  let r := mk_datetime (ymd2ord 2024 1 5) 11 15 0 0 in
  get_next_run_time default_config t = Ok r /\
  dt_ltb r (session_start default_config (ordinal r)) = false /\
  dt_gtb r (session_end default_config (ordinal r)) = false.
Proof.
  intros t r.
  assert (Hr : get_next_run_time default_config t = Ok r) by reflexivity.
  split; [exact Hr|].
  destruct (planner_answer_in_session default_config t r eq_refl eq_refl Hr)
    as (_ & _ & _ & Hlo & Hhi & _).
  split; assumption.
Defined.

(** X2. The planner stays on the date it is asked about or moves to a later
    date that is at most three days away and is a Monday to Friday; asked on
    a trading day it therefore never answers with a Saturday or Sunday. *)
Theorem planner_answer_date (cfg : Config) (t r : datetime) :
  wf_config cfg = true -> valid t = true ->
  get_next_run_time cfg t = Ok r ->
  (ordinal r = ordinal t \/
   (ordinal t < ordinal r <= ordinal t + 3 /\ weekday (ordinal r) < 5)) /\
  (weekday (ordinal t) < 5 -> weekday (ordinal r) < 5).
Proof.
  intros Hwf Hv Hr. destruct (wf_config_split cfg Hwf) as [Hwin Hint].
  destruct (next_trading_day_spec (ordinal t)) as (Hd & Hw & _).
  pose proof (next_trading_day_within_three (ordinal t)) as H3.
  assert (Hor : ordinal r = ordinal t \/
                ordinal r = next_trading_day (ordinal t)).
  { destruct (get_next_run_time_shape cfg t r Hwf Hv Hr)
      as [[-> _] | [[-> _] | (Hc & _)]]; [now left | now right |].
    left. now destruct (candidate_inv cfg Hint t r Hv Hc) as (_ & Ho & _). }
  destruct Hor as [E | E]; rewrite E; split; auto.
Qed.

Lemma planner_answer_date_witness :
  let t := mk_datetime (ymd2ord 2024 1 5) 15 15 0 0 in
  let r := mk_datetime (ymd2ord 2024 1 8) 9 15 0 0 in
  get_next_run_time default_config t = Ok r /\
  weekday (ordinal t) = 4 /\ ordinal r = ordinal t + 3 /\
  weekday (ordinal r) < 5.
Proof.
  intros t r.
  assert (Hr : get_next_run_time default_config t = Ok r)
    by (vm_compute; reflexivity).
  split; [exact Hr|]. split; [reflexivity|]. split; [reflexivity|].
  apply (planner_answer_date default_config t r eq_refl eq_refl Hr).
  reflexivity.
Defined.

(** The time of day of a session start and of a session end, in the terms of
    [to_us]. *)
Lemma to_us_session_start (cfg : Config) (d : Z) :
  to_us (session_start cfg d)
  = d * us_per_day + TRADING_START_HOUR cfg * us_per_hour
    + TRADING_START_MINUTE cfg * us_per_minute.
Proof. unfold session_start, to_us. fields. lia. Qed.

Lemma to_us_session_end (cfg : Config) (d : Z) :
  to_us (session_end cfg d)
  = d * us_per_day + TRADING_END_HOUR cfg * us_per_hour
    + TRADING_END_MINUTE cfg * us_per_minute.
Proof. unfold session_end, to_us. fields. lia. Qed.

Lemma window_bounds (cfg : Config) :
  wf_window cfg = true ->
  0 <= TRADING_START_HOUR cfg < 24 /\ 0 <= TRADING_START_MINUTE cfg < 60 /\
  0 <= TRADING_END_HOUR cfg < 24 /\ 0 <= TRADING_END_MINUTE cfg < 60.
Proof.
  intros Hwin.
  pose proof (session_start_valid cfg Hwin 0) as Hs. apply valid_iff in Hs.
  pose proof (session_end_valid cfg Hwin 0) as He. apply valid_iff in He.
  unfold session_start, session_end in *. fields. lia.
Qed.

Lemma to_us_candidate (cfg : Config) (t c : datetime) :
  wf_interval cfg = true -> valid t = true -> candidate cfg t = Ok c ->
  to_us c
  = ordinal t * us_per_day
    + (hour t * 60 + (minute t / SCAN_INTERVAL_MINUTES cfg + 1)
                     * SCAN_INTERVAL_MINUTES cfg) * us_per_minute.
Proof.
  intros Hint Hv Hc.
  destruct (candidate_inv cfg Hint t c Hv Hc) as (_ & Ho & Hs & Hu & Hm & _).
  unfold to_us. rewrite Ho, Hs, Hu. unfold_us. lia.
Qed.

(** X3. The wait the planner asks for is positive and never longer than
    three days; when the answer falls on the date of a request made from the
    start of the session on, it is at most one interval away. *)
Theorem planner_wait_bounds (cfg : Config) (t r : datetime) :
  wf_config cfg = true -> valid t = true ->
  get_next_run_time cfg t = Ok r ->
  0 < wait_us r t <= 3 * us_per_day /\
  (ordinal r = ordinal t ->
   dt_ltb t (session_start cfg (ordinal t)) = false ->
   wait_us r t <= SCAN_INTERVAL_MINUTES cfg * us_per_minute).
Proof.
  intros Hwf Hv Hr. destruct (wf_config_split cfg Hwf) as [Hwin Hint].
  destruct (get_next_run_time_later cfg Hwin Hint t r Hv Hr) as [Hvr Hlater].
  pose proof (window_bounds cfg Hwin) as Hb.
  pose proof Hv as Hv'. apply valid_iff in Hv'.
  destruct (next_trading_day_spec (ordinal t)) as (Hd & _).
  pose proof (next_trading_day_within_three (ordinal t)) as H3.
  unfold wait_us.
  destruct (get_next_run_time_shape cfg t r Hwf Hv Hr)
    as [[-> Hpre] | [(-> & Hlo & _) | (Hc & Hlo & Hhi)]].
  - split.
    + rewrite to_us_session_start in *. unfold_us. lia.
    + intros _ Hnot. rewrite dt_ltb_us in Hnot by auto using session_start_valid.
      unbool. lia.
  - split.
    + rewrite !to_us_session_start in *. unfold_us. lia.
    + cbn [ordinal session_start]. lia.
  - rewrite (to_us_candidate cfg t r Hint Hv Hc) in *.
    destruct (snap_bounds cfg Hint (minute t) ltac:(lia)) as (Hs1 & Hs60 & _).
    split; [|intros _ _]; unfold_us; lia.
Qed.

Lemma planner_wait_bounds_witness :
  let t := mk_datetime (ymd2ord 2024 1 5) 15 15 0 0 in
  let r := mk_datetime (ymd2ord 2024 1 8) 9 15 0 0 in
  get_next_run_time default_config t = Ok r /\
  wait_us r t = 66 * us_per_hour /\
  0 < wait_us r t <= 3 * us_per_day.
Proof.
  intros t r.
  assert (Hr : get_next_run_time default_config t = Ok r)
    by (vm_compute; reflexivity).
  split; [exact Hr|]. split; [reflexivity|].
  apply (planner_wait_bounds default_config t r eq_refl eq_refl Hr).
Defined.

(** X4. With the end of the session on the grid, a request made on a trading
    day gets a wait of more than 24 hours exactly when it is made on a
    Friday at or after the end of the session: this is the one case in which
    the scheduler's 24-hour test sends a trading-day round to sleep without
    running the job. *)
Theorem long_wait_iff_friday_close (cfg : Config) (t r : datetime) :
  wf_config cfg = true ->
  TRADING_END_MINUTE cfg mod SCAN_INTERVAL_MINUTES cfg = 0 ->
  valid t = true -> weekday (ordinal t) < 5 ->
  get_next_run_time cfg t = Ok r ->
  (day_seconds * us_per_second < wait_us r t <->
   weekday (ordinal t) = 4 /\ dt_ltb t (session_end cfg (ordinal t)) = false).
Proof.
  intros Hwf Hgrid Hv Hwd Hr. destruct (wf_config_split cfg Hwf) as [Hwin Hint].
  pose proof (window_bounds cfg Hwin) as Hb.
  pose proof Hv as Hv'. apply valid_iff in Hv'.
  pose proof (session_start_before_end cfg Hwin (ordinal t)) as Hse.
  pose proof (weekday_range (ordinal t)) as Hrange.
  rewrite dt_ltb_us by auto using session_end_valid.
  unfold wait_us, day_seconds.
  destruct (get_next_run_time_shape cfg t r Hwf Hv Hr)
    as [[-> Hpre] | [(-> & Hlo & Hover) | (Hc & Hlo & Hhi)]].
  - (* before the session *)
    split.
    + intros Hlong. exfalso. revert Hlong.
      rewrite to_us_session_start. unfold_us. lia.
    + intros [_ Hge]. unbool. lia.
  - (* rolled to the next trading day *)
    assert (Hend : to_us (session_end cfg (ordinal t)) <= to_us t).
    { destruct Hover as [Hgt | (c & Hc & Hgt)]; [lia|].
      rewrite (to_us_candidate cfg t c Hint Hv Hc) in Hgt.
      rewrite to_us_session_end in *.
      destruct (snap_bounds cfg Hint (minute t) ltac:(lia))
        as (_ & _ & _ & Hmin).
      pose proof Hint as Hi. unfold wf_interval in Hi. unbool.
      destruct (Z.lt_ge_cases (hour t * 60 + minute t)
                  (TRADING_END_HOUR cfg * 60 + TRADING_END_MINUTE cfg))
        as [Hbefore | Hafter]; [exfalso | unfold_us; lia].
      assert (Eg : TRADING_END_MINUTE cfg
                   = TRADING_END_MINUTE cfg / SCAN_INTERVAL_MINUTES cfg
                     * SCAN_INTERVAL_MINUTES cfg).
      { pose proof (Z.div_mod (TRADING_END_MINUTE cfg)
                      (SCAN_INTERVAL_MINUTES cfg) ltac:(lia)). lia. }
      destruct (snap_bounds cfg Hint (minute t) ltac:(lia))
        as (_ & Hs60 & _ & _).
      specialize (Hmin (TRADING_END_MINUTE cfg / SCAN_INTERVAL_MINUTES cfg)).
      revert Hgt. unfold_us.
      destruct (Z.lt_trichotomy (hour t) (TRADING_END_HOUR cfg))
        as [Hh | [Hh | Hh]]; lia. }
    unfold next_trading_day. rewrite skip_weekend_closed, weekday_succ.
    rewrite !to_us_session_start in *.
    destruct (Z.eq_dec (weekday (ordinal t)) 4) as [E4 | N4].
    + rewrite E4. cbn [Z.eqb Z.add Pos.add Pos.succ Pos.eqb].
      split.
      * intros _. split; [reflexivity | apply Z.ltb_ge; exact Hend].
      * intros _. unfold_us. lia.
    + destruct (Z.eqb_spec (weekday (ordinal t)) 6); [lia|].
      destruct (Z.eqb_spec (weekday (ordinal t) + 1) 5); [lia|].
      destruct (Z.eqb_spec (weekday (ordinal t) + 1) 6); [lia|].
      split.
      * intros Hlong. exfalso. revert Hlong. unfold_us. lia.
      * intros [E _]. contradiction.
  - (* a tick of the same session *)
    pose proof (candidate_after cfg Hint t r Hv Hc) as Hafter.
    rewrite (to_us_candidate cfg t r Hint Hv Hc) in *.
    destruct (snap_bounds cfg Hint (minute t) ltac:(lia)) as (Hs1 & Hs60 & _).
    split.
    + intros Hlong. exfalso. revert Hlong. unfold_us. lia.
    + intros [_ Hge]. unbool. lia.
Qed.

Lemma long_wait_iff_friday_close_witness :
  let t := mk_datetime (ymd2ord 2024 1 5) 15 15 0 0 in
  let r := mk_datetime (ymd2ord 2024 1 8) 9 15 0 0 in
  weekday (ordinal t) = 4 /\
  get_next_run_time default_config t = Ok r /\
  day_seconds * us_per_second < wait_us r t.
Proof.
  intros t r.
  assert (Hr : get_next_run_time default_config t = Ok r)
    by (vm_compute; reflexivity).
  assert (Hwd : weekday (ordinal t) < 5) by (vm_compute; reflexivity).
  split; [reflexivity|]. split; [exact Hr|].
  apply (long_wait_iff_friday_close default_config t r eq_refl eq_refl eq_refl
           Hwd Hr).
  split; reflexivity.
Defined.

(** Snapping keeps the order of two instants of one date. *)
Lemma candidate_monotone (cfg : Config) (t1 t2 c1 c2 : datetime) :
  wf_interval cfg = true -> valid t1 = true -> valid t2 = true ->
  ordinal t1 = ordinal t2 -> to_us t1 <= to_us t2 ->
  candidate cfg t1 = Ok c1 -> candidate cfg t2 = Ok c2 ->
  to_us c1 <= to_us c2.
Proof.
  intros Hint Hv1 Hv2 Ho Hle Hc1 Hc2.
  rewrite (to_us_candidate cfg t1 c1 Hint Hv1 Hc1).
  rewrite (to_us_candidate cfg t2 c2 Hint Hv2 Hc2).
  apply valid_iff in Hv1. apply valid_iff in Hv2.
  destruct (snap_bounds cfg Hint (minute t1) ltac:(lia)) as (Ha1 & Ha60 & _).
  destruct (snap_bounds cfg Hint (minute t2) ltac:(lia)) as (Hb1 & Hb60 & _).
  pose proof Hint as Hi. unfold wf_interval in Hi. unbool.
  rewrite Ho. revert Hle. unfold_us. rewrite Ho. intros Hle.
  destruct (Z.lt_trichotomy (hour t1) (hour t2)) as [Hh | [Hh | Hh]];
    [lia | | lia].
  assert (Hm : minute t1 <= minute t2) by lia.
  pose proof (Z.div_le_mono (minute t1) (minute t2)
                (SCAN_INTERVAL_MINUTES cfg) ltac:(lia) Hm).
  nia.
Qed.

(** X5. The planner keeps the order of requests: a later request, made on a
    trading day, never gets an earlier answer than an earlier request. *)
Theorem planner_monotone (cfg : Config) (t1 t2 r1 r2 : datetime) :
  wf_config cfg = true -> valid t1 = true -> valid t2 = true ->
  dt_gtb t1 t2 = false -> weekday (ordinal t2) < 5 ->
  get_next_run_time cfg t1 = Ok r1 -> get_next_run_time cfg t2 = Ok r2 ->
  dt_gtb r1 r2 = false.
Proof.
  intros Hwf Hv1 Hv2 Hle Hwd Hr1 Hr2.
  destruct (wf_config_split cfg Hwf) as [Hwin Hint].
  destruct (get_next_run_time_later cfg Hwin Hint t1 r1 Hv1 Hr1) as [Hvr1 Hl1].
  destruct (get_next_run_time_later cfg Hwin Hint t2 r2 Hv2 Hr2) as [Hvr2 Hl2].
  rewrite dt_gtb_us in * by assumption. unbool. apply Z.ltb_ge.
  pose proof (window_bounds cfg Hwin) as Hb.
  pose proof Hv1 as Hv1'. apply valid_iff in Hv1'.
  pose proof Hv2 as Hv2'. apply valid_iff in Hv2'.
  pose proof (session_start_before_end cfg Hwin (ordinal t1)) as Hse1.
  (* the answer to the later request is not before its session start *)
  assert (Hfloor2 : to_us (session_start cfg (ordinal t2)) <= to_us r2).
  { destruct (get_next_run_time_shape cfg t2 r2 Hwf Hv2 Hr2)
      as [[-> _] | [(-> & _ & _) | (_ & Hlo & _)]]; [lia | | lia].
    destruct (next_trading_day_spec (ordinal t2)) as (Hd & _).
    rewrite !to_us_session_start. unfold_us. lia. }
  assert (Hord : ordinal t1 <= ordinal t2).
  { revert Hle. unfold_us. lia. }
  destruct (Z.eq_dec (ordinal t1) (ordinal t2)) as [Eo | No].
  - (* both requests on one date *)
    destruct (get_next_run_time_shape cfg t1 r1 Hwf Hv1 Hr1)
      as [[-> Hpre1] | [(-> & Hlo1 & Hover1) | (Hc1 & Hlo1 & Hhi1)]].
    + rewrite Eo. exact Hfloor2.
    + destruct (get_next_run_time_shape cfg t2 r2 Hwf Hv2 Hr2)
        as [[-> Hpre2] | [(-> & _ & _) | (Hc2 & Hlo2 & Hhi2)]].
      * rewrite Eo in *. lia.
      * rewrite Eo. lia.
      * exfalso. rewrite Eo in *.
        pose proof (candidate_after cfg Hint t2 r2 Hv2 Hc2).
        destruct Hover1 as [Hgt | (c1 & Hc1 & Hgt)]; [lia|].
        pose proof (candidate_monotone cfg t1 t2 c1 r2 Hint Hv1 Hv2 Eo Hle
                      Hc1 Hc2). lia.
    + destruct (get_next_run_time_shape cfg t2 r2 Hwf Hv2 Hr2)
        as [[-> Hpre2] | [(-> & _ & _) | (Hc2 & Hlo2 & Hhi2)]].
      * rewrite Eo in *. lia.
      * destruct (next_trading_day_spec (ordinal t2)) as (Hd & _).
        rewrite to_us_session_start. rewrite to_us_session_end in Hhi1.
        rewrite Eo in *. unfold_us. lia.
      * now apply (candidate_monotone cfg t1 t2 r1 r2).
  - (* the later request on a later date *)
    assert (Hlt : ordinal t1 < ordinal t2) by lia.
    assert (Hnext : next_trading_day (ordinal t1) <= ordinal t2).
    { destruct (next_trading_day_spec (ordinal t1)) as (_ & _ & Hbetween).
      destruct (Z.le_gt_cases (next_trading_day (ordinal t1)) (ordinal t2))
        as [Hok | Hbad]; [exact Hok|].
      specialize (Hbetween (ordinal t2) ltac:(lia)). lia. }
    rewrite to_us_session_start in Hfloor2.
    destruct (get_next_run_time_shape cfg t1 r1 Hwf Hv1 Hr1)
      as [[-> Hpre1] | [(-> & Hlo1 & Hover1) | (Hc1 & Hlo1 & Hhi1)]].
    + rewrite to_us_session_start. unfold_us. nia.
    + rewrite to_us_session_start. unfold_us. nia.
    + rewrite to_us_session_end in Hhi1. unfold_us. nia.
Qed.

Lemma planner_monotone_witness :
  let t1 := mk_datetime (ymd2ord 2024 1 5) 15 20 0 0 in
  let t2 := mk_datetime (ymd2ord 2024 1 8) 8 0 0 0 in
  let r := mk_datetime (ymd2ord 2024 1 8) 9 15 0 0 in
  get_next_run_time default_config t1 = Ok r /\
  get_next_run_time default_config t2 = Ok r /\
  dt_gtb t1 t2 = false /\ dt_gtb r r = false.
Proof.
  intros t1 t2 r.
  assert (Hr1 : get_next_run_time default_config t1 = Ok r)
    by (vm_compute; reflexivity).
  assert (Hr2 : get_next_run_time default_config t2 = Ok r)
    by (vm_compute; reflexivity).
  assert (Hwd : weekday (ordinal t2) < 5) by (vm_compute; reflexivity).
  split; [exact Hr1|]. split; [exact Hr2|]. split; [reflexivity|].
  apply (planner_monotone default_config t1 t2 r r eq_refl eq_refl eq_refl
           eq_refl Hwd Hr1 Hr2).
Defined.

(** Without the condition on the weekday the order can be lost: the planner
    answers a Friday evening with Monday morning and the Saturday morning
    after it with that same Saturday. *)
Example planner_order_lost_on_saturday :
  let t1 := mk_datetime (ymd2ord 2024 1 5) 15 20 0 0 in
  let t2 := mk_datetime (ymd2ord 2024 1 6) 8 0 0 0 in
  dt_gtb t1 t2 = false /\
  get_next_run_time default_config t1
  = Ok (mk_datetime (ymd2ord 2024 1 8) 9 15 0 0) /\
  get_next_run_time default_config t2
  = Ok (mk_datetime (ymd2ord 2024 1 6) 9 15 0 0).
Proof. repeat split; vm_compute; reflexivity. Qed.

(* ------------------------------------------------------------------------- *)
(** ** Further properties of the scheduler *)

Section RoundFacts.

Variable cfg : Config.
Variable read_cost : Z -> Z.
Variable job_run : Z -> Z * option exn.

(** Reading the clock and running the job take no negative time. *)
Let causal : Prop :=
  (forall c, 0 <= read_cost c) /\ (forall c, 0 <= fst (job_run c)).

Lemma job_effect (w : World) :
  exists r,
    job job_run w
    = (r, mk_world (clock w + fst (job_run (clock w))) (trace w ++ [EvJob])).
Proof.
  unfold job. destruct (job_run (clock w)) as [d [e |]]; cbn [fst]; eauto.
Qed.

(** What [dispatch] does to the world: it appends events, among them at most
    one entry into the job, and lets a positive time pass. *)
Lemma dispatch_steps_forward (now next_run : datetime) (w : World) :
  exists r clk evs,
    dispatch job_run now next_run w = (r, mk_world clk (trace w ++ evs)) /\
    (jobs_run evs <= 1)%nat /\ (causal -> clock w < clk).
Proof.
  destruct (Z.lt_ge_cases (day_seconds * us_per_second) (wait_us next_run now))
    as [Hlong | Hshort].
  - rewrite dispatch_long_wait by assumption.
    do 3 eexists. split; [reflexivity|]. split; [cbn; lia|]. intros _.
    cbn [clock]. revert Hlong. unfold day_seconds. unfold_us. lia.
  - destruct (Z.lt_ge_cases 0 (wait_us next_run now)) as [Hpos | Hnon].
    + rewrite dispatch_short_wait by lia.
      match goal with |- context [job job_run ?w0] =>
        destruct (job_effect w0) as (r & ->);
        pose proof (fun H : causal => proj2 H (clock w0)) as Hd end.
      cbn [clock trace] in *. rewrite <- app_assoc.
      do 3 eexists. split; [reflexivity|]. split; [cbn; lia|].
      intros Hc. specialize (Hd Hc). lia.
    + rewrite dispatch_no_wait by lia.
      match goal with |- context [job job_run ?w0] =>
        destruct (job_effect w0) as (r & ->);
        pose proof (fun H : causal => proj2 H (clock w0)) as Hd end.
      cbn [clock trace] in *. rewrite <- app_assoc.
      do 3 eexists. split; [reflexivity|]. split; [cbn; lia|].
      intros Hc. specialize (Hd Hc). revert Hd. unfold_us. lia.
Qed.

(** The same for a whole round, which moreover ends without an exception. *)
Lemma loop_body_steps_forward (w : World) :
  exists clk evs,
    loop_body cfg read_cost job_run w = (Ok tt, mk_world clk (trace w ++ evs)) /\
    (jobs_run evs <= 1)%nat /\ (causal -> clock w < clk).
Proof.
  assert (Hclk : causal -> clock w <= clock (after_readings read_cost w)).
  { intros [Hr _]. pose proof (Hr (clock w)).
    pose proof (Hr (clock w + read_cost (clock w))).
    unfold after_readings. cbn [clock]. lia. }
  assert (Hcool : forall e clk evs,
    iteration cfg read_cost job_run w
    = (Raise e, mk_world clk (trace w ++ evs)) ->
    (jobs_run evs <= 1)%nat -> (causal -> clock w <= clk) ->
    exists clk' evs',
      loop_body cfg read_cost job_run w
      = (Ok tt, mk_world clk' (trace w ++ evs')) /\
      (jobs_run evs' <= 1)%nat /\ (causal -> clock w < clk')).
  { intros e clk evs Hit Hj Hc. unfold loop_body, try_except. rewrite Hit.
    rewrite on_error_ok. cbn [clock trace]. rewrite <- app_assoc.
    do 2 eexists. split; [reflexivity|]. split.
    - rewrite jobs_run_app. cbn. lia.
    - intros H. specialize (Hc H). unfold cooldown_seconds. unfold_us. lia. }
  assert (Hdone : forall clk evs,
    iteration cfg read_cost job_run w
    = (Ok tt, mk_world clk (trace w ++ evs)) ->
    (jobs_run evs <= 1)%nat -> (causal -> clock w < clk) ->
    exists clk' evs',
      loop_body cfg read_cost job_run w
      = (Ok tt, mk_world clk' (trace w ++ evs')) /\
      (jobs_run evs' <= 1)%nat /\ (causal -> clock w < clk')).
  { intros clk evs Hit Hj Hc. unfold loop_body, try_except. rewrite Hit. eauto. }
  pose proof (iteration_unfold cfg read_cost job_run w) as Hit.
  cbv zeta in Hit.
  set (w2 := after_readings read_cost w) in *.
  assert (Htr : trace w2
                = trace w ++ [EvClock (of_us (clock w));
                              EvClock (of_us (clock w + read_cost (clock w)))])
    by reflexivity.
  destruct (weekday (ordinal (second_reading read_cost w)) <? 5).
  - (* a trading day *)
    unfold bind at 1 in Hit. unfold lift in Hit.
    destruct (get_next_run_time cfg (of_us (clock w))) as [next_run | e].
    + destruct (dispatch_steps_forward (of_us (clock w)) next_run w2)
        as (r & clk & evs & Hd & Hj & Hc).
      rewrite Hd, Htr, <- app_assoc in Hit.
      destruct r as [[] | e].
      * apply (Hdone _ _ Hit); [rewrite jobs_run_app; cbn; lia|].
        intros H. specialize (Hc H). specialize (Hclk H). lia.
      * apply (Hcool _ _ _ Hit); [rewrite jobs_run_app; cbn; lia|].
        intros H. specialize (Hc H). specialize (Hclk H). lia.
    + unfold w2, after_readings in Hit, Hclk. cbn [clock] in Hclk.
      apply (Hcool _ _ _ Hit); [cbn; lia | exact Hclk].
  - (* a week-end *)
    unfold bind at 1 in Hit. unfold lift in Hit.
    destruct (next_monday cfg (of_us (clock w))) as [next_run | e] eqn:Hnm.
    + unfold bind, emit in Hit. cbn [clock trace] in Hit.
      assert (Hpos : 0 < wait_us next_run (of_us (clock w))).
      { pose proof (of_us_valid (clock w)) as Hv. apply valid_iff in Hv.
        revert Hnm Hv. generalize (of_us (clock w)). intros now Hnm Hv.
        unfold next_monday, replace in Hnm.
        match type of Hnm with (if ?b then _ else _) = _ =>
          destruct b eqn:Hb; [|discriminate] end.
        apply valid_time_iff in Hb.
        pose proof (weekday_range (ordinal now)) as Hw.
        assert (E : to_us next_run
                    = (ordinal now + (7 - weekday (ordinal now))) * us_per_day
                      + TRADING_START_HOUR cfg * us_per_hour
                      + TRADING_START_MINUTE cfg * us_per_minute).
        { assert (En : next_run
                       = mk_datetime (ordinal now + (7 - weekday (ordinal now)))
                           (TRADING_START_HOUR cfg) (TRADING_START_MINUTE cfg)
                           0 0)
            by (unfold add_days in Hnm; cbn [ordinal] in Hnm; congruence).
          rewrite En. unfold to_us.
          cbn [ordinal hour minute second microsecond]. lia. }
        unfold wait_us. rewrite E. unfold_us. lia. }
      rewrite sleep_ok in Hit by (cbn [clock trace]; lia).
      cbn [clock trace] in Hit. rewrite Htr, <- !app_assoc in Hit.
      apply (Hdone _ _ Hit); [cbn; lia|].
      intros H. specialize (Hclk H). lia.
    + unfold w2, after_readings in Hit, Hclk. cbn [clock] in Hclk.
      apply (Hcool _ _ _ Hit); [cbn; lia | exact Hclk].
Qed.

End RoundFacts.

(** X6. The loop never spins: as long as reading the clock and running the
    job take no negative time, every round, whatever the configuration and
    whatever the job does, ends without an exception and with the clock
    strictly later than it started; [n] rounds take the clock forward by at
    least [n] microseconds. *)
Theorem no_busy_loop (cfg : Config) (read_cost : Z -> Z)
    (job_run : Z -> Z * option exn) :
  (forall c, 0 <= read_cost c) -> (forall c, 0 <= fst (job_run c)) ->
  (forall w, exists w',
     loop_body cfg read_cost job_run w = (Ok tt, w') /\ clock w < clock w') /\
  (forall n w, exists w',
     main_loop cfg read_cost job_run n w = (Ok tt, w') /\
     clock w + Z.of_nat n <= clock w').
Proof.
  intros Hr Hj.
  assert (Hone : forall w, exists w',
    loop_body cfg read_cost job_run w = (Ok tt, w') /\ clock w < clock w').
  { intros w.
    destruct (loop_body_steps_forward cfg read_cost job_run w)
      as (clk & evs & Hb & _ & Hc).
    eexists. split; [exact Hb | apply Hc; split; assumption]. }
  split; [exact Hone|].
  induction n as [| n IH]; intros w.
  - exists w. split; [reflexivity | cbn; lia].
  - destruct (Hone w) as (w1 & Hb & Hc). destruct (IH w1) as (w' & Hm & Hc').
    exists w'. split.
    + cbn [main_loop]. unfold bind. rewrite Hb. exact Hm.
    + lia.
Qed.

Lemma no_busy_loop_witness :
  let w := mk_world (to_us (mk_datetime (ymd2ord 2024 1 8) 15 14 59 999999)) [] in
  let job_run := fun _ : Z => (0, Some DeliveryError) in
  exists w',
    loop_body default_config (fun _ => 0) job_run w = (Ok tt, w') /\
    clock w < clock w'.
Proof.
  intros w job_run.
  apply (no_busy_loop default_config (fun _ => 0) job_run);
    intros c; cbn; lia.
Defined.

(** X7. A round enters the job at most once, so [n] rounds enter it at most
    [n] times. *)
Theorem at_most_one_job_per_round (cfg : Config) (read_cost : Z -> Z)
    (job_run : Z -> Z * option exn) (n : nat) (w : World) :
  (jobs_run (trace (snd (main_loop cfg read_cost job_run n w)))
   <= jobs_run (trace w) + n)%nat.
Proof.
  revert w. induction n as [| n IH]; intros w.
  - cbn. lia.
  - destruct (loop_body_steps_forward cfg read_cost job_run w)
      as (clk & evs & Hb & Hjobs & _).
    cbn [main_loop]. unfold bind. rewrite Hb.
    specialize (IH (mk_world clk (trace w ++ evs))).
    cbn [trace] in IH. rewrite jobs_run_app in IH. lia.
Qed.

(** Three rounds from Monday 10:00 do enter the job three times, at 10:15,
    10:30 and 10:45. *)
Example three_rounds_three_jobs :
  let w := mk_world (to_us (mk_datetime (ymd2ord 2024 1 8) 10 0 0 0)) [] in
  let job_run := fun _ : Z => (2 * us_per_second, @None exn) in
  let w' := snd (main_loop default_config (fun _ => 0) job_run 3 w) in
  jobs_run (trace w') = 3%nat /\
  clock w' = to_us (mk_datetime (ymd2ord 2024 1 8) 10 45 2 0).
Proof. split; vm_compute; reflexivity. Qed.

(** With a clock that is read in no time the second reading is the first, and
    the round goes on from the instant at which it started. *)
Lemma after_readings_instant (w : World) :
  after_readings (fun _ => 0) w
  = mk_world (clock w)
             (trace w ++ [EvClock (of_us (clock w)); EvClock (of_us (clock w))]).
Proof. unfold after_readings. now rewrite !Z.add_0_r. Qed.

Lemma second_reading_instant (w : World) :
  second_reading (fun _ => 0) w = of_us (clock w).
Proof. unfold second_reading. now rewrite Z.add_0_r. Qed.

(** A wait of more than a day, asked for on a trading day, leads from a
    Friday to the start of the session of the Monday after it. *)
Lemma long_wait_target (cfg : Config) (t r : datetime) :
  wf_config cfg = true -> valid t = true -> weekday (ordinal t) < 5 ->
  get_next_run_time cfg t = Ok r ->
  day_seconds * us_per_second < wait_us r t ->
  weekday (ordinal t) = 4 /\ r = session_start cfg (ordinal t + 3).
Proof.
  intros Hwf Hv Hwd Hr Hlong. destruct (wf_config_split cfg Hwf) as [Hwin Hint].
  pose proof (window_bounds cfg Hwin) as Hb.
  pose proof Hv as Hv'. apply valid_iff in Hv'.
  pose proof (weekday_range (ordinal t)) as Hrange.
  unfold wait_us, day_seconds in Hlong.
  destruct (get_next_run_time_shape cfg t r Hwf Hv Hr)
    as [[-> Hpre] | [(-> & Hlo & _) | (Hc & Hlo & Hhi)]].
  - exfalso. revert Hlong. rewrite to_us_session_start. unfold_us. lia.
  - revert Hlong. unfold next_trading_day.
    rewrite skip_weekend_closed, weekday_succ.
    rewrite !to_us_session_start in *.
    destruct (Z.eq_dec (weekday (ordinal t)) 4) as [E4 | N4].
    + rewrite E4. cbn [Z.eqb Z.add Pos.add Pos.succ Pos.eqb]. intros _.
      split; [reflexivity|]. f_equal. lia.
    + destruct (Z.eqb_spec (weekday (ordinal t)) 6); [lia|].
      destruct (Z.eqb_spec (weekday (ordinal t) + 1) 5); [lia|].
      destruct (Z.eqb_spec (weekday (ordinal t) + 1) 6); [lia|].
      intros Hlong. exfalso. revert Hlong. unfold_us. lia.
  - exfalso. rewrite (to_us_candidate cfg t r Hint Hv Hc) in *.
    destruct (snap_bounds cfg Hint (minute t) ltac:(lia)) as (Hs1 & Hs60 & _).
    revert Hlong. unfold_us. lia.
Qed.

(** The round that starts exactly at the opening of a session plans the
    second tick and runs the job there. *)
Lemma iteration_at_open (job_run : Z -> Z * option exn) (d : Z)
    (tr : list event) :
  weekday d < 5 ->
  let open := session_start default_config d in
  let tick := mk_datetime d 9 30 0 0 in
  iteration default_config (fun _ => 0) job_run (mk_world (to_us open) tr)
  = job job_run
      (mk_world (to_us tick)
                (tr ++ [EvClock open; EvClock open;
                        EvInfo (SleepingFor 900 tick);
                        EvSleep (900 * us_per_second)])).
Proof.
  intros Hwd open tick.
  assert (Hwin : wf_window default_config = true) by reflexivity.
  assert (Hint : wf_interval default_config = true) by reflexivity.
  assert (Hv : valid open = true) by reflexivity.
  assert (Eo : to_us open = d * us_per_day + 555 * us_per_minute).
  { unfold open. rewrite to_us_session_start.
    cbn [TRADING_START_HOUR TRADING_START_MINUTE default_config].
    unfold_us. lia. }
  assert (Ee : to_us (session_end default_config d)
               = d * us_per_day + 915 * us_per_minute).
  { rewrite to_us_session_end.
    cbn [TRADING_END_HOUR TRADING_END_MINUTE default_config].
    unfold_us. lia. }
  assert (Et : to_us tick = d * us_per_day + 570 * us_per_minute).
  { unfold tick, to_us. cbn [ordinal hour minute second microsecond].
    unfold_us. lia. }
  assert (Hplan : get_next_run_time default_config open = Ok tick).
  { rewrite (get_next_run_time_in_window default_config Hwin Hint open tick Hv).
    - change (ordinal open) with d. rewrite Ee, Et.
      destruct (Z.ltb_spec (d * us_per_day + 915 * us_per_minute)
                           (d * us_per_day + 570 * us_per_minute)) as [Hbad | _];
        [revert Hbad; unfold_us; lia | reflexivity].
    - change (ordinal open) with d. fold open. rewrite Ee, Eo.
      unfold_us. lia.
    - reflexivity. }
  assert (Hwait : wait_us tick open = 900 * us_per_second).
  { unfold wait_us. rewrite Et, Eo. unfold_us. lia. }
  rewrite (iteration_trading_day default_config (fun _ => 0) job_run _ tick).
  - rewrite after_readings_instant. cbn [clock trace].
    rewrite (of_us_to_us open Hv).
    rewrite dispatch_short_wait
      by (rewrite Hwait; unfold day_seconds; unfold_us; lia).
    rewrite Hwait. cbn [clock trace]. rewrite <- app_assoc.
    replace (900 * us_per_second / us_per_second) with 900 by reflexivity.
    f_equal. f_equal. rewrite <- Hwait. unfold wait_us. lia.
  - rewrite second_reading_instant. cbn [clock].
    rewrite (of_us_to_us open Hv). unfold open. cbn [ordinal session_start].
    apply Z.ltb_lt. exact Hwd.
  - cbn [clock]. rewrite (of_us_to_us open Hv). exact Hplan.
Qed.

(** X8. When a round on a trading day runs the job, the job starts at the
    planned instant (plus the time the two readings of the clock took), and
    the planned instant lies on a Monday to Friday, inside the session of its
    date. *)
Theorem job_runs_in_session (cfg : Config) (read_cost : Z -> Z)
    (job_run : Z -> Z * option exn) (w : World) (next_run : datetime) :
  wf_config cfg = true ->
  weekday (ordinal (of_us (clock w))) < 5 ->
  (weekday (ordinal (second_reading read_cost w)) <? 5) = true ->
  get_next_run_time cfg (of_us (clock w)) = Ok next_run ->
  wait_us next_run (of_us (clock w)) <= day_seconds * us_per_second ->
  let w2 := after_readings read_cost w in
  (exists pre,
     jobs_run pre = 0%nat /\
     iteration cfg read_cost job_run w
     = job job_run (mk_world (to_us next_run + (clock w2 - clock w))
                             (trace w ++ pre))) /\
  weekday (ordinal next_run) < 5 /\
  dt_ltb next_run (session_start cfg (ordinal next_run)) = false /\
  dt_gtb next_run (session_end cfg (ordinal next_run)) = false.
Proof.
  intros Hwf Hwd Htd Hnr Hshort w2.
  destruct (wf_config_split cfg Hwf) as [Hwin Hint].
  pose proof (of_us_valid (clock w)) as Hv.
  destruct (get_next_run_time_later cfg Hwin Hint _ _ Hv Hnr) as [Hvr Hlater].
  split.
  - exists [EvClock (of_us (clock w));
            EvClock (of_us (clock w + read_cost (clock w)));
            EvInfo (SleepingFor (wait_us next_run (of_us (clock w))
                                 / us_per_second) next_run);
            EvSleep (wait_us next_run (of_us (clock w)))].
    split; [reflexivity|].
    rewrite (iteration_trading_day cfg read_cost job_run w next_run Htd Hnr).
    rewrite dispatch_short_wait by (split; [unfold wait_us; lia | exact Hshort]).
    fold w2. f_equal. f_equal.
    + unfold wait_us. rewrite to_us_of_us. lia.
    + unfold w2, after_readings. cbn [trace]. now rewrite <- app_assoc.
  - pose proof (session_start_before_end cfg Hwin (ordinal (of_us (clock w)))).
    rewrite dt_ltb_us, dt_gtb_us
      by auto using session_start_valid, session_end_valid.
    rewrite Z.ltb_ge, Z.ltb_ge.
    destruct (get_next_run_time_shape cfg _ next_run Hwf Hv Hnr)
      as [[-> _] | [(-> & _ & _) | (Hc & Hlo & Hhi)]].
    + cbn [ordinal session_start].
      fold (session_start cfg (ordinal (of_us (clock w)))).
      repeat split; [assumption | lia | lia].
    + destruct (next_trading_day_spec (ordinal (of_us (clock w))))
        as (_ & Hw & _).
      pose proof (session_start_before_end cfg Hwin
                    (next_trading_day (ordinal (of_us (clock w))))).
      cbn [ordinal session_start].
      fold (session_start cfg (next_trading_day (ordinal (of_us (clock w))))).
      repeat split; [assumption | lia | lia].
    + destruct (candidate_inv cfg Hint _ _ Hv Hc) as (_ & Ho & _).
      rewrite Ho. repeat split; [assumption | lia | lia].
Qed.

Lemma job_runs_in_session_witness :
  let w := mk_world (to_us (mk_datetime (ymd2ord 2024 1 4) 20 0 0 0)) [] in
  let job_run := fun _ : Z => (0, @None exn) in
  let next_run := mk_datetime (ymd2ord 2024 1 5) 9 15 0 0 in
  get_next_run_time default_config (of_us (clock w)) = Ok next_run /\
  weekday (ordinal next_run) < 5 /\
  dt_gtb next_run (session_end default_config (ordinal next_run)) = false.
Proof.
  intros w job_run next_run.
  assert (Hnr : get_next_run_time default_config (of_us (clock w)) = Ok next_run)
    by (vm_compute; reflexivity).
  assert (Hwd : weekday (ordinal (of_us (clock w))) < 5)
    by (vm_compute; reflexivity).
  assert (Hshort : wait_us next_run (of_us (clock w))
                   <= day_seconds * us_per_second)
    by (vm_compute; discriminate).
  split; [exact Hnr|].
  destruct (job_runs_in_session default_config (fun _ => 0) job_run w next_run
              eq_refl Hwd eq_refl Hnr Hshort) as (_ & Hday & _ & Hend).
  split; assumption.
Defined.

(** X9. With a clock that is read in no time, a round that ends without
    running the job and without an exception (a week-end, or the long wait of
    a Friday evening) ends exactly at 09:15 of a Monday; the round after it
    plans the tick of 09:30 and runs the job there, so that the scan of 09:15
    is left out on that Monday. *)
Theorem monday_open_left_out (job_run : Z -> Z * option exn) (w w1 : World) :
  iteration default_config (fun _ => 0) job_run w = (Ok tt, w1) ->
  jobs_run (trace w1) = jobs_run (trace w) ->
  exists d,
    weekday d = 0 /\
    clock w1 = to_us (mk_datetime d 9 15 0 0) /\
    iteration default_config (fun _ => 0) job_run w1
    = job job_run
        (mk_world (to_us (mk_datetime d 9 30 0 0))
                  (trace w1 ++ [EvClock (mk_datetime d 9 15 0 0);
                                EvClock (mk_datetime d 9 15 0 0);
                                EvInfo (SleepingFor 900 (mk_datetime d 9 30 0 0));
                                EvSleep (900 * us_per_second)])).
Proof.
  intros Hit Hjobs.
  assert (Hwf : wf_config default_config = true) by reflexivity.
  destruct (wf_config_split _ Hwf) as [Hwin Hint].
  pose proof (of_us_valid (clock w)) as Hv.
  set (now := of_us (clock w)) in *.
  assert (Hnow : to_us now = clock w) by apply to_us_of_us.
  assert (Hgoal : forall d,
    weekday d = 0 -> clock w1 = to_us (session_start default_config d) ->
    exists d0,
      weekday d0 = 0 /\
      clock w1 = to_us (mk_datetime d0 9 15 0 0) /\
      iteration default_config (fun _ => 0) job_run w1
      = job job_run
          (mk_world (to_us (mk_datetime d0 9 30 0 0))
                    (trace w1 ++ [EvClock (mk_datetime d0 9 15 0 0);
                                  EvClock (mk_datetime d0 9 15 0 0);
                                  EvInfo (SleepingFor 900 (mk_datetime d0 9 30 0 0));
                                  EvSleep (900 * us_per_second)]))).
  { intros d Hd Hclock. exists d. split; [exact Hd|]. split; [exact Hclock|].
    destruct w1 as [c1 tr1]. cbn [clock trace] in *. subst c1.
    apply (iteration_at_open job_run d tr1). lia. }
  destruct (weekday (ordinal now) <? 5) eqn:Htd.
  - (* a trading day: the round must have taken the long wait *)
    destruct (get_next_run_time default_config now) as [r | e] eqn:Hr.
    2: { exfalso. rewrite iteration_unfold in Hit. cbv zeta in Hit.
         rewrite second_reading_instant in Hit. fold now in Hit.
         rewrite Htd, Hr in Hit. unfold jbind, bind, lift in Hit.
         discriminate. }
    apply Z.ltb_lt in Htd.
    rewrite (iteration_trading_day default_config (fun _ => 0) job_run w r)
      in Hit
      by (rewrite ?second_reading_instant; fold now; auto; now apply Z.ltb_lt).
    fold now in Hit. rewrite after_readings_instant in Hit.
    destruct (Z.lt_ge_cases (day_seconds * us_per_second) (wait_us r now))
      as [Hlong | Hshort].
    + destruct (long_wait_target default_config now r Hwf Hv Htd Hr Hlong)
        as [E4 ->].
      rewrite dispatch_long_wait in Hit by assumption.
      apply (Hgoal (ordinal now + 3)).
      * rewrite weekday_add, E4. reflexivity.
      * apply (f_equal snd) in Hit. cbn [snd] in Hit. rewrite <- Hit.
        cbn [clock]. unfold wait_us. lia.
    + exfalso.
      destruct (get_next_run_time_later default_config Hwin Hint now r Hv Hr)
        as [_ Hlater].
      rewrite dispatch_short_wait in Hit
        by (split; [unfold wait_us; lia | exact Hshort]).
      pose proof (job_trace job_run
        (mk_world (clock w + wait_us r now)
           ((trace w ++ [EvClock now; EvClock now]) ++
            [EvInfo (SleepingFor (wait_us r now / us_per_second) r);
             EvSleep (wait_us r now)]))) as Htr.
      fold now in Hit. cbn [clock trace] in Hit. rewrite Hit in Htr.
      cbn [snd trace] in Htr. rewrite Htr in Hjobs.
      rewrite !jobs_run_app in Hjobs. cbn in Hjobs. lia.
  - (* a week-end *)
    pose proof (iteration_weekend default_config (fun _ => 0) job_run w Hwin)
      as Hwe.
    rewrite second_reading_instant in Hwe. fold now in Hwe.
    specialize (Hwe Htd). cbv zeta in Hwe. rewrite Hwe in Hit.
    apply (Hgoal (ordinal now + (7 - weekday (ordinal now)))).
    + apply next_monday_is_monday.
    + apply (f_equal snd) in Hit. cbn [snd] in Hit. rewrite <- Hit.
      rewrite after_readings_instant. cbn [clock]. unfold wait_us. lia.
Qed.

Lemma monday_open_left_out_witness :
  let w := mk_world (to_us (mk_datetime (ymd2ord 2024 1 5) 16 0 0 0)) [] in
  let job_run := fun _ : Z => (0, @None exn) in
  let w1 := snd (iteration default_config (fun _ => 0) job_run w) in
  iteration default_config (fun _ => 0) job_run w = (Ok tt, w1) /\
  jobs_run (trace w1) = jobs_run (trace w) /\
  exists d,
    weekday d = 0 /\
    clock w1 = to_us (mk_datetime d 9 15 0 0) /\
    iteration default_config (fun _ => 0) job_run w1
    = job job_run
        (mk_world (to_us (mk_datetime d 9 30 0 0))
                  (trace w1 ++ [EvClock (mk_datetime d 9 15 0 0);
                                EvClock (mk_datetime d 9 15 0 0);
                                EvInfo (SleepingFor 900 (mk_datetime d 9 30 0 0));
                                EvSleep (900 * us_per_second)])).
Proof.
  intros w job_run w1.
  assert (Hit : iteration default_config (fun _ => 0) job_run w = (Ok tt, w1))
    by (vm_compute; reflexivity).
  assert (Hjobs : jobs_run (trace w1) = jobs_run (trace w))
    by (vm_compute; reflexivity).
  split; [exact Hit|]. split; [exact Hjobs|].
  apply (monday_open_left_out job_run w w1 Hit Hjobs).
Defined.

(* ------------------------------------------------------------------------- *)
(** ** The retry decorator *)

Lemma sleeps_app (tr1 tr2 : list job_event) :
  sleeps (tr1 ++ tr2) = sleeps tr1 ++ sleeps tr2.
Proof.
  induction tr1 as [| ev tr1 IH]; [reflexivity|].
  destruct ev; cbn [sleeps app]; rewrite IH; reflexivity.
Qed.

Lemma scans_app (tr1 tr2 : list job_event) :
  scans (tr1 ++ tr2) = (scans tr1 + scans tr2)%nat.
Proof.
  induction tr1 as [| ev tr1 IH]; [reflexivity|].
  destruct ev; cbn [scans app]; rewrite IH; reflexivity.
Qed.

Lemma posts_app (tr1 tr2 : list job_event) :
  posts (tr1 ++ tr2) = (posts tr1 + posts tr2)%nat.
Proof.
  induction tr1 as [| ev tr1 IH]; [reflexivity|].
  destruct ev; cbn [posts app]; rewrite IH; reflexivity.
Qed.

Lemma total_app (l1 l2 : list Z) : total (l1 ++ l2) = total l1 + total l2.
Proof.
  unfold total. induction l1 as [| x l1 IH]; cbn [fold_right app]; lia.
Qed.

(** backoff * (1 + 2 + ... + 2^(k-1)) *)
Lemma total_backoffs_from (backoff : Z) (s k : nat) :
  total (map (fun i => backoff * 2 ^ Z.of_nat i) (seq s k))
  = backoff * (2 ^ Z.of_nat (s + k) - 2 ^ Z.of_nat s).
Proof.
  revert s. induction k as [| k IH]; intros s.
  - rewrite Nat.add_0_r. cbn. lia.
  - cbn [seq map]. unfold total in *. cbn [fold_right]. rewrite IH.
    replace (Z.of_nat (S s + k)) with (Z.of_nat (s + S k)) by lia.
    replace (Z.of_nat (S s)) with (Z.of_nat s + 1) by lia.
    rewrite Z.pow_add_r by lia. lia.
Qed.

Lemma total_backoffs (backoff : Z) (k : nat) :
  total (backoffs backoff k) = backoff * (2 ^ Z.of_nat k - 1).
Proof. unfold backoffs. rewrite total_backoffs_from. reflexivity. Qed.

Lemma jsleep_ok (us : Z) (w : JobWorld) :
  0 <= us ->
  jsleep us w = (Ok tt, mk_job_world (jclock w + us) (jtrace w ++ [JSleep us])).
Proof.
  intros H. unfold jsleep. destruct (Z.ltb_spec us 0); [lia | reflexivity].
Qed.

Section DecoratorFacts.

Context {A : Type}.
Variable max_retries : Z.
Variable backoff : Z.
Variable func : J A.

Hypothesis backoff_nonneg : 0 <= backoff.

(** A measure of the events of the decorated function (how many requests it
    made, say), to which the decorator's own events add nothing and each call
    adds between [lo] and [hi]. *)
Variable count : list job_event -> nat.
Variable lo hi : nat.

Hypothesis count_app :
  forall tr1 tr2, count (tr1 ++ tr2) = (count tr1 + count tr2)%nat.
Hypothesis count_wrapper :
  forall attempt e wait,
    count [JLog (AttemptFailed attempt e wait); JSleep wait] = 0%nat.

(** The decorated function only appends to the trace, and does not sleep. *)
Hypothesis func_appends :
  forall w, exists evs,
    jtrace (snd (func w)) = jtrace w ++ evs /\ sleeps evs = [] /\
    (lo <= count evs <= hi)%nat.

(** The loop over the attempts [s], [s+1], ... that are still to be made. *)
Lemma attempts_outcome (len s : nat) (w : JobWorld) :
  len = 0%nat \/ Z.of_nat s + Z.of_nat len = max_retries ->
  exists r w' k evs,
    attempts max_retries backoff func (map Z.of_nat (seq s len)) w = (r, w') /\
    jtrace w' = jtrace w ++ evs /\
    sleeps evs = map (fun i => backoff * 2 ^ Z.of_nat i) (seq s k) /\
    match r with
    | Ok None => len = 0%nat /\ k = 0%nat /\ w' = w /\ evs = []
    | Ok (Some a) =>
      (k < len)%nat /\ (exists wl, func wl = (Ok a, w')) /\
      (S k * lo <= count evs <= S k * hi)%nat
    | Raise e =>
      S k = len /\ (exists wl, func wl = (Raise e, w')) /\
      (S k * lo <= count evs <= S k * hi)%nat
    end.
Proof.
  revert s w. induction len as [| len IH]; intros s w Hend.
  - exists (Ok None), w, 0%nat, []. cbn [seq map attempts].
    rewrite app_nil_r. repeat split; reflexivity.
  - destruct Hend as [Hend | Hend]; [discriminate|].
    cbn [seq map attempts].
    destruct (func_appends w) as (evs1 & Htr1 & Hsl1 & Hc1).
    destruct (func w) as [[a | e] w1] eqn:Hf; cbn [snd] in Htr1.
    + exists (Ok (Some a)), w1, 0%nat, evs1.
      repeat split; auto; try lia. eauto.
    + destruct (Z.eqb_spec (Z.of_nat s) (max_retries - 1)) as [Elast | Nlast].
      * exists (Raise e), w1, 0%nat, evs1.
        repeat split; auto; try lia. eauto.
      * assert (Hwait : 0 <= backoff * 2 ^ Z.of_nat s)
          by (apply Z.mul_nonneg_nonneg; [assumption | apply Z.pow_nonneg; lia]).
        unfold jbind at 1. unfold jemit. unfold jbind at 1.
        rewrite jsleep_ok by assumption. cbn [jclock jtrace].
        match goal with |- context [attempts _ _ _ _ ?w0] =>
          destruct (IH (S s) w0 ltac:(right; lia))
            as (r & w' & k & evs & Hrun & Htr & Hsl & Hr) end.
        cbn [jtrace] in Htr.
        exists r, w', (S k),
          (evs1 ++ [JLog (AttemptFailed (Z.of_nat s + 1) e
                            (backoff * 2 ^ Z.of_nat s));
                    JSleep (backoff * 2 ^ Z.of_nat s)] ++ evs).
        split; [exact Hrun|].
        split; [rewrite Htr, Htr1, <- !app_assoc; reflexivity|].
        split.
        { rewrite !sleeps_app, Hsl1, Hsl. reflexivity. }
        assert (Hcount :
          count (evs1 ++ [JLog (AttemptFailed (Z.of_nat s + 1) e
                             (backoff * 2 ^ Z.of_nat s));
                          JSleep (backoff * 2 ^ Z.of_nat s)] ++ evs)
          = (count evs1 + count evs)%nat).
        { rewrite !count_app, count_wrapper. lia. }
        rewrite Hcount.
        destruct r as [[a |] | e'].
        -- destruct Hr as (Hk & Hlast & Hc). repeat split; auto; try lia.
           all: rewrite Nat.mul_succ_l; lia.
        -- destruct Hr as (Hlen & _). exfalso. subst len. lia.
        -- destruct Hr as (Hk & Hlast & Hc). repeat split; auto; try lia.
           all: rewrite Nat.mul_succ_l; lia.
Qed.

End DecoratorFacts.


(* ------------------------------------------------------------------------- *)
(** ** The job *)

Section JobFacts.

Variable row : Type.
Variable MAX_RETRIES : Z.
Variable RETRY_BACKOFF : Z.
Variable chartink : Z -> Z * result (option (list row)).
Variable format_row : row -> result string.
Variable telegram : Z -> string -> Z * option exn.

Local Abbreviation fetch_body' := (fetch_body row chartink).
Local Abbreviation send_body' := (send_body row format_row telegram).
Local Abbreviation fetch' :=
  (fetch_chartink_data row MAX_RETRIES RETRY_BACKOFF chartink).
Local Abbreviation send' :=
  (send_to_telegram row MAX_RETRIES RETRY_BACKOFF format_row telegram).
Local Abbreviation job' :=
  (job_body row MAX_RETRIES RETRY_BACKOFF chartink format_row telegram).

(** One call of the body of [fetch_chartink_data]: one scan, no post, no
    sleep; the clock moves by the time the requests took. *)
Lemma fetch_body_effect (w : JobWorld) :
  exists r evs,
    fetch_body' w
    = (r, mk_job_world (jclock w + fst (chartink (jclock w))) (jtrace w ++ evs))
    /\ sleeps evs = [] /\ scans evs = 1%nat /\ posts evs = 0%nat.
Proof.
  unfold fetch_body. destruct (chartink (jclock w)) as [d answer].
  cbn [fst jclock jtrace].
  destruct answer as [[[| r rows] |] | e]; rewrite <- ?app_assoc;
    do 2 eexists; (split; [reflexivity|]); repeat split.
Qed.

(** One call of the body of [send_to_telegram]: no scan, at most one post, no
    sleep. *)
Lemma send_body_effect (df : option (list row)) (w : JobWorld) :
  exists r clk evs,
    send_body' df w = (r, mk_job_world clk (jtrace w ++ evs)) /\
    sleeps evs = [] /\ scans evs = 0%nat /\ (posts evs <= 1)%nat /\
    ((forall c text, 0 <= fst (telegram c text)) -> jclock w <= clk).
Proof.
  unfold send_body. destruct df as [rows |].
  - destruct (build_message row format_row rows) as [text | e].
    + pose proof (fun H : forall c text, 0 <= fst (telegram c text) =>
                    H (jclock w) text) as Hd.
      destruct (telegram (jclock w) text) as [d [e |]]; cbn [fst] in Hd;
        cbn [jclock jtrace]; rewrite <- app_assoc;
        do 3 eexists; (split; [reflexivity|]);
        repeat split; cbn; try lia; intros H; specialize (Hd H); lia.
    + do 3 eexists. split; [reflexivity|]. repeat split; cbn; lia.
  - do 3 eexists. split; [reflexivity|]. repeat split; cbn; lia.
Qed.

(** The decorated fetch: its outcome, its sleeps and its requests. *)
Lemma fetch_outcome (w : JobWorld) :
  0 <= RETRY_BACKOFF ->
  exists r w' k evs,
    fetch' w = (r, w') /\ jtrace w' = jtrace w ++ evs /\
    sleeps evs = backoffs RETRY_BACKOFF k /\ posts evs = 0%nat /\
    match r with
    | Ok None => MAX_RETRIES <= 0 /\ w' = w /\ evs = []
    | Ok (Some rows) =>
      Z.of_nat k < MAX_RETRIES /\ scans evs = S k /\
      exists wl, fetch_body' wl = (Ok rows, w')
    | Raise e =>
      Z.of_nat k = MAX_RETRIES - 1 /\ scans evs = S k /\
      exists wl, fetch_body' wl = (Raise e, w')
    end.
Proof.
  intros Hb.
  assert (Hs : forall w0, exists evs,
    jtrace (snd (fetch_body' w0)) = jtrace w0 ++ evs /\ sleeps evs = [] /\
    (1 <= scans evs <= 1)%nat).
  { intros w0. destruct (fetch_body_effect w0) as (r & evs & -> & H1 & H2 & _).
    exists evs. cbn [snd jtrace]. repeat split; auto; lia. }
  assert (Hp : forall w0, exists evs,
    jtrace (snd (fetch_body' w0)) = jtrace w0 ++ evs /\ sleeps evs = [] /\
    (0 <= posts evs <= 0)%nat).
  { intros w0. destruct (fetch_body_effect w0) as (r & evs & -> & H1 & _ & H3).
    exists evs. cbn [snd jtrace]. repeat split; auto; lia. }
  assert (Hend : Z.to_nat MAX_RETRIES = 0%nat
                 \/ Z.of_nat 0 + Z.of_nat (Z.to_nat MAX_RETRIES) = MAX_RETRIES)
    by lia.
  destruct (attempts_outcome MAX_RETRIES RETRY_BACKOFF fetch_body' Hb scans
              1%nat 1%nat scans_app (fun _ _ _ => eq_refl) Hs
              (Z.to_nat MAX_RETRIES) 0%nat w Hend)
    as (r & w' & k & evs & Hrun & Htr & Hsl & Hr).
  destruct (attempts_outcome MAX_RETRIES RETRY_BACKOFF fetch_body' Hb posts
              0%nat 0%nat posts_app (fun _ _ _ => eq_refl) Hp
              (Z.to_nat MAX_RETRIES) 0%nat w Hend)
    as (r2 & w2 & k2 & evs2 & Hrun2 & Htr2 & _ & Hr2).
  rewrite Hrun in Hrun2. injection Hrun2 as <- <-.
  rewrite Htr in Htr2. apply app_inv_head in Htr2. subst evs2.
  exists r, w', k, evs. unfold fetch_chartink_data, retry_on_failure, range.
  split; [exact Hrun|]. split; [exact Htr|]. split; [exact Hsl|].
  destruct r as [[rows |] | e].
  - destruct Hr as (Hk & Hlast & Hc). destruct Hr2 as (_ & _ & Hc2).
    repeat split; auto; lia.
  - destruct Hr as (Hlen & _ & Hw & Hevs). subst evs.
    repeat split; auto. lia.
  - destruct Hr as (Hk & Hlast & Hc). destruct Hr2 as (_ & _ & Hc2).
    repeat split; auto; lia.
Qed.

(** The decorated send. *)
Lemma send_outcome (df : option (list row)) (w : JobWorld) :
  0 <= RETRY_BACKOFF ->
  exists r w' k evs,
    send' df w = (r, w') /\ jtrace w' = jtrace w ++ evs /\
    sleeps evs = backoffs RETRY_BACKOFF k /\ scans evs = 0%nat /\
    match r with
    | Ok None => MAX_RETRIES <= 0 /\ w' = w /\ evs = []
    | Ok (Some _) =>
      Z.of_nat k < MAX_RETRIES /\ (posts evs <= S k)%nat /\
      exists wl, send_body' df wl = (Ok tt, w')
    | Raise e =>
      Z.of_nat k = MAX_RETRIES - 1 /\ (posts evs <= S k)%nat /\
      exists wl, send_body' df wl = (Raise e, w')
    end.
Proof.
  intros Hb.
  assert (Hs : forall w0, exists evs,
    jtrace (snd (send_body' df w0)) = jtrace w0 ++ evs /\ sleeps evs = [] /\
    (0 <= scans evs <= 0)%nat).
  { intros w0.
    destruct (send_body_effect df w0) as (r & c & evs & -> & H1 & H2 & _).
    exists evs. cbn [snd jtrace]. repeat split; auto; lia. }
  assert (Hp : forall w0, exists evs,
    jtrace (snd (send_body' df w0)) = jtrace w0 ++ evs /\ sleeps evs = [] /\
    (0 <= posts evs <= 1)%nat).
  { intros w0.
    destruct (send_body_effect df w0) as (r & c & evs & -> & H1 & _ & H3 & _).
    exists evs. cbn [snd jtrace]. repeat split; auto; lia. }
  assert (Hend : Z.to_nat MAX_RETRIES = 0%nat
                 \/ Z.of_nat 0 + Z.of_nat (Z.to_nat MAX_RETRIES) = MAX_RETRIES)
    by lia.
  destruct (attempts_outcome MAX_RETRIES RETRY_BACKOFF (send_body' df) Hb scans
              0%nat 0%nat scans_app (fun _ _ _ => eq_refl) Hs
              (Z.to_nat MAX_RETRIES) 0%nat w Hend)
    as (r & w' & k & evs & Hrun & Htr & Hsl & Hr).
  destruct (attempts_outcome MAX_RETRIES RETRY_BACKOFF (send_body' df) Hb posts
              0%nat 1%nat posts_app (fun _ _ _ => eq_refl) Hp
              (Z.to_nat MAX_RETRIES) 0%nat w Hend)
    as (r2 & w2 & k2 & evs2 & Hrun2 & Htr2 & Hsl2 & Hr2).
  rewrite Hrun in Hrun2. injection Hrun2 as <- <-.
  rewrite Htr in Htr2. apply app_inv_head in Htr2. subst evs2.
  assert (Ek : k2 = k).
  { rewrite Hsl in Hsl2. apply (f_equal (@List.length Z)) in Hsl2.
    rewrite !length_map, !length_seq in Hsl2. auto. }
  subst k2.
  exists r, w', k, evs. unfold send_to_telegram, retry_on_failure, range.
  split; [exact Hrun|]. split; [exact Htr|]. split; [exact Hsl|].
  destruct r as [[[] |] | e].
  - destruct Hr as (Hk & Hlast & Hc). destruct Hr2 as (_ & _ & Hc2).
    repeat split; auto; lia.
  - destruct Hr as (Hlen & _ & Hw & Hevs). subst evs.
    repeat split; auto. lia.
  - destruct Hr as (Hk & Hlast & Hc). destruct Hr2 as (_ & _ & Hc2).
    repeat split; auto; lia.
Qed.

Lemma range_positive (n : Z) :
  1 <= n -> range n = 0 :: map Z.of_nat (seq 1 (Z.to_nat (n - 1))).
Proof.
  intros H. unfold range.
  replace (Z.to_nat n) with (S (Z.to_nat (n - 1))) by lia. reflexivity.
Qed.

Lemma range_nonpositive (n : Z) : n <= 0 -> range n = [].
Proof.
  intros H. unfold range. replace (Z.to_nat n) with 0%nat by lia. reflexivity.
Qed.

End JobFacts.

(** X11. With MAX_RETRIES at zero or below, [job] asks neither Chartink nor
    Telegram: both decorated functions return [None] without a single call,
    and [job] returns normally, having only logged that it is checking. *)
Theorem job_without_retries (row : Type) (MAX_RETRIES RETRY_BACKOFF : Z)
    (chartink : Z -> Z * result (option (list row)))
    (format_row : row -> result string)
    (telegram : Z -> string -> Z * option exn) (w : JobWorld) :
  MAX_RETRIES <= 0 ->
  job_body row MAX_RETRIES RETRY_BACKOFF chartink format_row telegram w
  = (Ok tt, mk_job_world (jclock w) (jtrace w ++ [JLog CheckingForSignals])).
Proof.
  intros H. unfold job_body, fetch_chartink_data, send_to_telegram,
    retry_on_failure.
  rewrite (range_nonpositive MAX_RETRIES H). reflexivity.
Qed.

Lemma job_without_retries_witness :
  let chartink := fun _ : Z => (1, Ok (Some [7])) in
  let format_row := fun _ : Z => Ok "row"%string in
  let telegram := fun (_ : Z) (_ : string) => (1, @None exn) in
  job_body Z 0 1000000 chartink format_row telegram (mk_job_world 0 [])
  = (Ok tt, mk_job_world 0 [JLog CheckingForSignals]).
Proof.
  intros chartink format_row telegram.
  apply (job_without_retries Z 0 1000000 chartink format_row telegram
           (mk_job_world 0 [])).
  lia.
Defined.

(** X12. A scan without data, be it that the answer has no "data" or that its
    list is empty, is reported: when the first scan answers so and Telegram
    accepts the message, [job] makes one scan and one post, and the text it
    posts is "No stocks matched the condition.". *)
Theorem job_reports_empty_scan (row : Type) (MAX_RETRIES RETRY_BACKOFF : Z)
    (chartink : Z -> Z * result (option (list row)))
    (format_row : row -> result string)
    (telegram : Z -> string -> Z * option exn) (w : JobWorld)
    (payload : option (list row)) (d1 d2 : Z) :
  1 <= MAX_RETRIES ->
  chartink (jclock w) = (d1, Ok payload) ->
  payload = None \/ payload = Some [] ->
  telegram (jclock w + d1) no_match_message = (d2, None) ->
  job_body row MAX_RETRIES RETRY_BACKOFF chartink format_row telegram w
  = (Ok tt,
     mk_job_world (jclock w + d1 + d2)
       (jtrace w ++ [JLog CheckingForSignals; JScan; JLog NoDataReceived;
                     JPost no_match_message; JLog TelegramSent])).
Proof.
  intros Hmax Hscan Hempty Hpost.
  unfold job_body, fetch_chartink_data, send_to_telegram, retry_on_failure.
  rewrite (range_positive MAX_RETRIES Hmax).
  unfold jbind at 1. unfold jemit.
  unfold jbind at 1. cbn [attempts]. unfold fetch_body at 1.
  cbn [jclock jtrace]. rewrite Hscan.
  cbn [jclock jtrace] in *.
  destruct Hempty; subst payload; cbn [jclock jtrace];
    unfold jbind; cbn [attempts]; unfold send_body; cbn [build_message];
    cbn [jclock jtrace]; rewrite Hpost; cbn [jclock jtrace]; unfold jret;
    rewrite <- !app_assoc; reflexivity.
Qed.

Lemma job_reports_empty_scan_witness :
  let chartink := fun _ : Z => (3, Ok (@None (list Z))) in
  let format_row := fun _ : Z => Ok "row"%string in
  let telegram := fun (_ : Z) (_ : string) => (2, @None exn) in
  job_body Z 3 1000000 chartink format_row telegram (mk_job_world 100 [])
  = (Ok tt,
     mk_job_world 105
       [JLog CheckingForSignals; JScan; JLog NoDataReceived;
        JPost no_match_message; JLog TelegramSent]).
Proof.
  intros chartink format_row telegram.
  apply (job_reports_empty_scan Z 3 1000000 chartink format_row telegram
           (mk_job_world 100 []) None 3 2);
    [lia | reflexivity | left; reflexivity | reflexivity].
Defined.


Lemma total_backoffs_bound (backoff : Z) (k : nat) (m : Z) :
  0 <= backoff -> Z.of_nat k <= m ->
  0 <= total (backoffs backoff k) <= backoff * (2 ^ m - 1).
Proof.
  intros Hb Hk. rewrite total_backoffs.
  assert (H1 : 1 <= 2 ^ Z.of_nat k) by (apply Z.pow_le_mono_r with (b := 0); lia).
  assert (H2 : 2 ^ Z.of_nat k <= 2 ^ m) by (apply Z.pow_le_mono_r; lia).
  nia.
Qed.

Lemma backoffs_inj (backoff : Z) (k1 k2 : nat) :
  backoffs backoff k1 = backoffs backoff k2 -> k1 = k2.
Proof.
  intros H. apply (f_equal (@List.length Z)) in H. unfold backoffs in H.
  now rewrite !length_map, !length_seq in H.
Qed.

Section JobOutcomes.

Variable row : Type.
Variable MAX_RETRIES : Z.
Variable RETRY_BACKOFF : Z.
Variable chartink : Z -> Z * result (option (list row)).
Variable format_row : row -> result string.
Variable telegram : Z -> string -> Z * option exn.

Local Abbreviation job' :=
  (job_body row MAX_RETRIES RETRY_BACKOFF chartink format_row telegram).

(** [job] is the fetch followed, unless it raised, by the send. *)
Lemma job_body_unfold (w : JobWorld) :
  job' w =
  match fetch_chartink_data row MAX_RETRIES RETRY_BACKOFF chartink
          (mk_job_world (jclock w) (jtrace w ++ [JLog CheckingForSignals])) with
  | (Ok df, w1) =>
    match send_to_telegram row MAX_RETRIES RETRY_BACKOFF format_row telegram
            df w1 with
    | (Ok _, w2) => (Ok tt, w2)
    | (Raise e, w2) => (Raise e, w2)
    end
  | (Raise e, w1) => (Raise e, w1)
  end.
Proof.
  unfold job_body, jbind, jemit, jret.
  destruct (fetch_chartink_data _ _ _ _ _) as [[df | e] w1]; [|reflexivity].
  destruct (send_to_telegram _ _ _ _ _ _ _) as [[u | e] w2]; reflexivity.
Qed.

End JobOutcomes.


